(** * PortfolioPal backend: authentication, password reset, admin gate and
      text generation, embedded from [src/backend/main.py],
      [src/backend/database.py], [src/backend/schemas.py] and [src/main.py].

    Python dictionaries are finite maps from strings to dynamically typed
    values, MongoDB collections are lists of documents in insertion order,
    and every handler is a function of the database state that yields an
    outcome (a returned value, an [HTTPException], or an exception nobody
    catches) together with the state it leaves behind.

    Strings are byte strings: [str.lower], [len] and slicing are modelled on
    ASCII text.  Time is counted in microseconds since the epoch, the
    resolution of [datetime]; one request reads the clock once. *)

From Stdlib Require Import ZArith NArith String Ascii List Bool Lia.
From stdpp Require Import base option list gmap strings fin_maps.

Local Open Scope string_scope.
Local Open Scope Z_scope.

(** ** Strings as Python sees them *)

Module Str.

Definition is_upper (c : ascii) : bool :=
  (Nat.leb 65 (nat_of_ascii c) && Nat.leb (nat_of_ascii c) 90)%bool.

Definition lower_char (c : ascii) : ascii :=
  if is_upper c then ascii_of_nat (nat_of_ascii c + 32) else c.

(** [s.lower()] *)
Fixpoint lower (s : string) : string :=
  match s with
  | EmptyString => EmptyString
  | String c s' => String (lower_char c) (lower s')
  end.

(** [s[:n]] *)
Fixpoint take (n : nat) (s : string) : string :=
  match n, s with
  | O, _ => EmptyString
  | S _, EmptyString => EmptyString
  | S n', String c s' => String c (take n' s')
  end.

(** [s[n:]] *)
Fixpoint drop (n : nat) (s : string) : string :=
  match n, s with
  | O, _ => s
  | S _, EmptyString => EmptyString
  | S n', String _ s' => drop n' s'
  end.

Fixpoint all (p : ascii -> bool) (s : string) : bool :=
  match s with
  | EmptyString => true
  | String c s' => (p c && all p s')%bool
  end.

Fixpoint mem (c : ascii) (s : string) : bool :=
  match s with
  | EmptyString => false
  | String c' s' => (Ascii.eqb c c' || mem c s')%bool
  end.

(** [s.startswith(p)] *)
Fixpoint startswith (p s : string) : bool :=
  match p, s with
  | EmptyString, _ => true
  | String _ _, EmptyString => false
  | String a p', String b s' => (Ascii.eqb a b && startswith p' s')%bool
  end.


(** [s.split(sep, 1)]: the text before the first [sep] and the text after
    it, or [None] when [sep] does not occur. *)
Fixpoint split_first (sep : ascii) (s : string) : option (string * string) :=
  match s with
  | EmptyString => None
  | String c s' =>
      if Ascii.eqb c sep then Some (EmptyString, s')
      else match split_first sep s' with
           | Some (a, b) => Some (String c a, b)
           | None => None
           end
  end.

(** [s.rsplit(sep, 1)]: the text before the last [sep] and the text after
    it, or [None] when [sep] does not occur. *)
Fixpoint split_last (sep : ascii) (s : string) : option (string * string) :=
  match s with
  | EmptyString => None
  | String c s' =>
      match split_last sep s' with
      | Some (a, b) => Some (String c a, b)
      | None => if Ascii.eqb c sep then Some (EmptyString, s') else None
      end
  end.

(** [sep.join(parts)] *)
Fixpoint join (sep : string) (parts : list string) : string :=
  match parts with
  | [] => EmptyString
  | [p] => p
  | p :: rest => p ++ sep ++ join sep rest
  end.

Definition is_digit (c : ascii) : bool :=
  (Nat.leb 48 (nat_of_ascii c) && Nat.leb (nat_of_ascii c) 57)%bool.

Definition digit_val (c : ascii) : Z := Z.of_nat (nat_of_ascii c) - 48.

Fixpoint digits_val (acc : Z) (s : string) : Z :=
  match s with
  | EmptyString => acc
  | String c s' => digits_val (10 * acc + digit_val c) s'
  end.

(** [int(s)] on a plain decimal numeral with an optional sign; [None] is
    Python's [ValueError]. *)
Definition to_int (s : string) : option Z :=
  match s with
  | EmptyString => None
  | String "-" ((String _ _) as d) =>
      if all is_digit d then Some (- digits_val 0 d) else None
  | String "+" ((String _ _) as d) =>
      if all is_digit d then Some (digits_val 0 d) else None
  | _ => if all is_digit s then Some (digits_val 0 s) else None
  end.

End Str.

(** ** Values held by dictionaries and documents *)

Inductive value : Type :=
| VNone
| VBool (b : bool)
| VInt (z : Z)
| VStr (s : string)
| VDate (t : Z)          (* a [datetime], microseconds since the epoch *)
| VOid (n : N).          (* a BSON [ObjectId], a 96-bit number *)

#[global] Instance value_eq_dec : EqDecision value.
Proof. solve_decision. Defined.

(** A Python [dict] with string keys. *)
Abbreviation dict := (gmap string value).

(** Truthiness, as [if x:] and [x and y] test it. *)
Definition truthy (v : value) : bool :=
  match v with
  | VNone => false
  | VBool b => b
  | VInt z => negb (z =? 0)
  | VStr s => negb (String.eqb s "")
  | VDate _ => true
  | VOid _ => true
  end.

(** ** Outcomes of a call *)

Inductive outcome (A : Type) : Type :=
| Return (a : A)
| HTTPException (status_code : Z) (detail : string)
| Uncaught (exn : string).

Arguments Return {A} a.
Arguments HTTPException {A} status_code detail.
Arguments Uncaught {A} exn.

Definition bind {A B} (m : outcome A) (k : A -> outcome B) : outcome B :=
  match m with
  | Return a => k a
  | HTTPException c d => HTTPException c d
  | Uncaught e => Uncaught e
  end.

Declare Scope py_scope.
Delimit Scope py_scope with py.
Notation "'let!' x ':=' m 'in' k" := (bind m (fun x => k))
  (at level 10, x name, m at level 100, k at level 200) : py_scope.
Local Open Scope py_scope.

(** ** ObjectId and its 24-digit hexadecimal text *)

Module ObjectId.

(** Lowercase digit for a value below 16. *)
Definition hex_digit (d : N) : ascii :=
  ascii_of_N (if (d <? 10)%N then 48 + d else if (d <? 16)%N then 87 + d else 102)%N.

(** [bytes.fromhex] reads digits of either case. *)
Definition hex_val (c : ascii) : option N :=
  let n := N_of_ascii c in
  if ((48 <=? n) && (n <=? 57))%N then Some (n - 48)%N
  else if ((97 <=? n) && (n <=? 102))%N then Some (n - 87)%N
  else if ((65 <=? n) && (n <=? 70))%N then Some (n - 55)%N
  else None.

(** The last [k] hexadecimal digits of [n], written in front of [acc]. *)
Fixpoint to_hex (k : nat) (n : N) (acc : string) : string :=
  match k with
  | O => acc
  | S k' => to_hex k' (n / 16)%N (String (hex_digit (n mod 16)%N) acc)
  end.

Fixpoint of_hex (s : string) (acc : N) : option N :=
  match s with
  | EmptyString => Some acc
  | String c s' =>
      match hex_val c with
      | Some d => of_hex s' (16 * acc + d)%N
      | None => None
      end
  end.

(** [str(oid)] *)
Definition str (oid : N) : string := to_hex 24 oid "".

(** [ObjectId(s)] for a string [s]; [None] is [bson.errors.InvalidId]. *)
Definition parse (s : string) : option N :=
  if Nat.eqb (String.length s) 24 then of_hex s 0%N else None.

End ObjectId.

(** ** The document store ([src/backend/database.py]) *)

(** A stored document.  The driver gives every inserted document a fresh
    [ObjectId] under ["_id"]; no caller in this program supplies its own.
    The unique index on the email of users is created on a best-effort
    basis at start-up and is left out: [signup] looks the email up before it
    inserts, so in a sequence of requests the index never fires. *)
Record document : Type := { doc_id : N; doc_fields : dict }.

Record database : Type := {
  collections : gmap string (list document);
  next_oid : N
}.

Module Mongo.

(** The document as the driver hands it out. *)
Definition as_dict (d : document) : dict :=
  <["_id" := VOid (doc_id d)]> (doc_fields d).

(** An equality filter such as [{"email": e}]: every key of the filter is
    present in the document with the same value. *)
Definition matches (flt : dict) (d : document) : bool :=
  bool_decide (map_Forall (fun k v => as_dict d !! k = Some v) flt).

(** [db[name]] *)
Definition col (db : database) (name : string) : list document :=
  default [] (collections db !! name).

Definition find (db : database) (name : string) (flt : dict) : list document :=
  List.filter (matches flt) (col db name).

Definition find_one (db : database) (name : string) (flt : dict) : option document :=
  head (find db name flt).

Definition insert_one (name : string) (data : dict) (db : database) : N * database :=
  let oid := next_oid db in
  (oid,
   {| collections :=
        <[name := (col db name ++ [{| doc_id := oid; doc_fields := data |}])%list]>
          (collections db);
      next_oid := N.succ oid |}).

Definition set_fields (upd : dict) (d : document) : document :=
  {| doc_id := doc_id d; doc_fields := upd ∪ doc_fields d |}.

Fixpoint update_first (flt upd : dict) (docs : list document) : list document :=
  match docs with
  | [] => []
  | d :: rest =>
      if matches flt d then set_fields upd d :: rest
      else d :: update_first flt upd rest
  end.

(** [db[name].update_one(flt, {"$set": upd})] *)
Definition update_one (name : string) (flt upd : dict) (db : database) : database :=
  {| collections := <[name := update_first flt upd (col db name)]> (collections db);
     next_oid := next_oid db |}.

End Mongo.

(** [doc["_id"] = str(doc["_id"])] *)
Definition stringify (d : document) : dict :=
  <["_id" := VStr (ObjectId.str (doc_id d))]> (Mongo.as_dict d).

Definition get_or (d : dict) (k : string) (dflt : value) : value :=
  default dflt (d !! k).

Definition create_document (collection_name : string) (data : dict) (now_ts : Z)
    (db : database) : string * database :=
  let data' :=
    <["updated_at" := get_or data "updated_at" (VDate now_ts)]>
      (<["created_at" := get_or data "created_at" (VDate now_ts)]> data) in
  let '(inserted_id, db') := Mongo.insert_one collection_name data' db in
  (ObjectId.str inserted_id, db').

(** [limit = 0] is falsy and leaves the cursor unlimited; no caller sorts. *)
Definition get_documents (db : database) (collection_name : string)
    (filter_dict : option dict) (limit : nat) : list dict :=
  let cur := Mongo.find db collection_name (default ∅ filter_dict) in
  let cur := match limit with O => cur | _ => firstn limit cur end in
  List.map stringify cur.

Definition get_one (db : database) (collection_name : string) (filter_dict : dict)
    : option dict :=
  stringify <$> Mongo.find_one db collection_name filter_dict.

(** [col.delete_one(flt)]: the first matching document goes; the count of
    deleted documents and the remaining ones. *)
Fixpoint delete_first (flt : dict) (docs : list document) : nat * list document :=
  match docs with
  | [] => (O, [])
  | d :: rest =>
      if Mongo.matches flt d then (1%nat, rest)
      else let '(n, rest') := delete_first flt rest in (n, d :: rest')
  end.

Definition delete_document (collection_name : string) (filter_dict : dict)
    (db : database) : nat * database :=
  let '(deleted_count, docs) := delete_first filter_dict (Mongo.col db collection_name) in
  (deleted_count,
   {| collections := <[collection_name := docs]> (collections db);
      next_oid := next_oid db |}).

(** ** passlib's [CryptContext(schemes=["bcrypt"])]

    The library is not part of the repository.  Its documented behaviour is
    written out up to the raw bcrypt digest, which stays a parameter:
    [verify] returns [False] for a hash of [None], raises [UnknownHashError]
    for a string no scheme identifies, raises a [ValueError] for a string
    that carries a bcrypt prefix and does not parse, and otherwise compares
    checksums. *)

Module Passlib.

Definition bcrypt64 : string :=
  "./ABCDEFGHIJKLMNOPQRSTUVWXYZabcdefghijklmnopqrstuvwxyz0123456789".

Definition ident_values : list string := ["$2b$"; "$2$"; "$2a$"; "$2x$"; "$2y$"].

Definition identify (hash : string) : bool :=
  existsb (fun ident => Str.startswith ident hash) ident_values.

Fixpoint parse_ident_from (idents : list string) (hash : string)
    : option (string * string) :=
  match idents with
  | [] => None
  | ident :: rest =>
      if Str.startswith ident hash
      then Some (ident, Str.drop (String.length ident) hash)
      else parse_ident_from rest hash
  end.

Record bcrypt_hash : Type := {
  ident : string; rounds : Z; salt : string; checksum : string
}.

Definition b64_field (n : nat) (s : string) : bool :=
  (Nat.eqb (String.length s) n && Str.all (fun c => Str.mem c bcrypt64) s)%bool.

(** [bcrypt.from_string] followed by the constructor's checks; [None] is a
    [ValueError].  The cost field must be its own two-digit rendering and
    lie in 4..31; a string without checksum is a configuration string,
    which [verify] refuses as well. *)
Definition from_string (hash : string) : option bcrypt_hash :=
  match parse_ident_from ident_values hash with
  | None => None
  | Some (id, tail) =>
      if String.eqb id "$2x$" then None
      else
        match Str.split_first "$" tail with
        | None => None
        | Some (rounds_str, data) =>
            if Str.mem "$" data then None
            else if negb (Nat.eqb (String.length rounds_str) 2
                          && Str.all Str.is_digit rounds_str) then None
            else
              let r := Str.digits_val 0 rounds_str in
              if negb ((4 <=? r) && (r <=? 31)) then None
              else
                let s := Str.take 22 data in
                let chk := Str.drop 22 data in
                if (b64_field 22 s && b64_field 31 chk)%bool
                then Some {| ident := id; rounds := r; salt := s; checksum := chk |}
                else None
        end
  end.

Section Context.

(** The bcrypt digest itself: ident, cost, salt and secret to the
    31-character checksum. *)
Variable bcrypt_checksum : string -> Z -> string -> string -> string.

(** [pwd_context.verify(secret, hash)] *)
Definition verify (secret : string) (hash : value) : outcome bool :=
  match hash with
  | VNone => Return false
  | VStr h =>
      if identify h then
        match from_string h with
        | Some p =>
            Return (String.eqb
                      (bcrypt_checksum (ident p) (rounds p) (salt p) secret)
                      (checksum p))
        | None => Uncaught "ValueError"
        end
      else Uncaught "UnknownHashError"
  | _ => Uncaught "TypeError"
  end.

(** [pwd_context.hash(secret)] with the random salt made explicit. *)
Definition hash (salt : string) (secret : string) : string :=
  "$2b$12$" ++ salt ++ bcrypt_checksum "$2b$" 12 salt secret.

End Context.

End Passlib.

(** ** python-jose's [jwt.encode] and [jwt.decode]

    The library is not part of the repository.  Its control flow is written
    out; base64url/JSON coding of a segment and HMAC-SHA256 stay
    parameters. *)

Module Jose.

Inductive decoded : Type :=
| Claims (payload : dict)
| JWTError
| Raised (exn : string).

Inductive check : Type := Pass | Fail | Crash (exn : string).

(** [int(v)]: a number, a [ValueError] ([None]) or a [TypeError]. *)
Definition py_int (v : value) : option (option Z) :=
  match v with
  | VInt z => Some (Some z)
  | VBool b => Some (Some (Z.b2z b))
  | VStr s => Some (Str.to_int s)
  | _ => None
  end.

Definition check_int (v : value) (ok : Z -> bool) : check :=
  match py_int v with
  | Some (Some z) => if ok z then Pass else Fail
  | Some None => Fail
  | None => Crash "TypeError"
  end.

Definition is_str (v : value) : bool :=
  match v with VStr _ => true | _ => false end.

Definition when_present (claims : dict) (k : string) (f : value -> check) : check :=
  match claims !! k with
  | None => Pass
  | Some v => f v
  end.

(** [_validate_claims] with no audience, issuer, subject or access token
    given and no leeway, in the library's order; [now] is in seconds. *)
Definition claim_checks (claims : dict) (now : Z) : list check :=
  [ when_present claims "iat" (fun v => check_int v (fun _ => true));
    when_present claims "nbf" (fun v => check_int v (fun nbf => negb (now <? nbf)));
    when_present claims "exp" (fun v => check_int v (fun exp => negb (exp <? now)));
    when_present claims "aud" (fun _ => Fail);
    when_present claims "sub" (fun v => if is_str v then Pass else Fail);
    when_present claims "jti" (fun v => if is_str v then Pass else Fail);
    when_present claims "at_hash" (fun _ => Fail) ].

Fixpoint first_failure (cs : list check) : check :=
  match cs with
  | [] => Pass
  | Pass :: rest => first_failure rest
  | c :: _ => c
  end.

Definition validate_claims (claims : dict) (now : Z) : check :=
  first_failure (claim_checks claims now).

(** A [datetime] under a time claim is replaced by its whole seconds. *)
Definition to_timestamp (claims : dict) (k : string) : dict :=
  match claims !! k with
  | Some (VDate t) => <[k := VInt (t / 1000000)]> claims
  | _ => claims
  end.

Definition jwt_header (algorithm : string) : dict :=
  {[ "alg" := VStr algorithm; "typ" := VStr "JWT" ]}.

(** The three dot-separated segments of a compact token, cut as the
    library cuts them: at the last dot, then at the first. *)
Record jws : Type := {
  signing_input : string;
  header_segment : string;
  claims_segment : string;
  crypto_segment : string
}.

Definition split_token (token : string) : option jws :=
  match Str.split_last "." token with
  | None => None
  | Some (input, crypto) =>
      match Str.split_first "." input with
      | None => None
      | Some (header, claims) =>
          Some {| signing_input := input; header_segment := header;
                  claims_segment := claims; crypto_segment := crypto |}
      end
  end.

(** The header names an algorithm and the caller accepts it. *)
Definition alg_allowed (header : dict) (algorithms : list string) : bool :=
  match header !! "alg" with
  | Some (VStr alg) => existsb (String.eqb alg) algorithms
  | _ => false
  end.

Section Codec.

(** base64url of the JSON text of a dictionary, and back; [None] when
    the segment is not base64url of a JSON object. *)
Variable dumps : dict -> string.
Variable loads : string -> option dict.
(** HMAC-SHA256 of a message under a key as a base64url segment, and
    the comparison of a segment against it. *)
Variable hmac_sign : string -> string -> string.
Variable hmac_verify : string -> string -> string -> bool.

Definition encode (claims : dict) (key : string) (algorithm : string) : string :=
  let claims := fold_left to_timestamp ["exp"; "iat"; "nbf"] claims in
  let signing_input := dumps (jwt_header algorithm) ++ "." ++ dumps claims in
  signing_input ++ "." ++ hmac_sign key signing_input.

(** [now] is the clock in microseconds. *)
Definition decode (token key : string) (algorithms : list string) (now : Z) : decoded :=
  match split_token token with
  | None => JWTError
  | Some t =>
      match loads (header_segment t) with
      | None => JWTError
      | Some header =>
          if negb (alg_allowed header algorithms) then JWTError
          else if negb (hmac_verify key (signing_input t) (crypto_segment t)) then JWTError
          else
            match loads (claims_segment t) with
            | None => JWTError
            | Some claims =>
                match validate_claims claims (now / 1000000) with
                | Pass => Claims claims
                | Fail => JWTError
                | Crash e => Raised e
                end
            end
      end
  end.

End Codec.

End Jose.

(** ** Request and response shapes ([src/backend/schemas.py]) *)

Module UserCreate.
Record t : Type := { email : string; password : string; name : option string }.
End UserCreate.

Module Token.
Record t : Type := { access_token : string; token_type : string; csrf_token : string }.
End Token.

Module ForgotPasswordRequest.
Record t : Type := { email : string }.
End ForgotPasswordRequest.

Module ResetPasswordRequest.
Record t : Type := { token : string; new_password : string }.
End ResetPasswordRequest.

(** The body [forgot_password] answers with: a message, and the raw token
    when an account exists. *)
Module ForgotPasswordResponse.
Record t : Type := { message : string; token : option string }.
End ForgotPasswordResponse.

Module ProjectInput.
Record t : Type := {
  title : string; description : string; technologies : list string;
  audience : string; tone : string
}.
End ProjectInput.

(** [OAuth2PasswordRequestForm] *)
Module LoginForm.
Record t : Type := { username : string; password : string }.
End LoginForm.

(** Starlette's [Request], as far as the handlers read it. *)
Record Address : Type := { host : string; port : Z }.
Record Request : Type := { client : option Address }.

(** The libraries the backend is linked against, down to the primitives
    left open above, and pydantic's [EmailStr] test. *)
Record libraries : Type := {
  bcrypt_checksum : string -> Z -> string -> string -> string;
  dumps : dict -> string;
  loads : string -> option dict;
  hmac_sign : string -> string -> string;
  hmac_verify : string -> string -> string -> bool;
  EmailStr : string -> bool
}.

(** The module-level constants read from the environment. *)
Record settings : Type := {
  SECRET_KEY : string;
  ACCESS_TOKEN_EXPIRE_MINUTES : Z;
  PRIMARY_ADMIN_EMAIL : string
}.

Definition getenv (environ : gmap string string) (k dflt : string) : string :=
  default dflt (environ !! k).

(** [None] when [int(...)] raises and the module fails to import. *)
Definition load_settings (environ : gmap string string) : option settings :=
  match Str.to_int (getenv environ "ACCESS_TOKEN_EXPIRE_MINUTES" "60") with
  | None => None
  | Some minutes =>
      Some {| SECRET_KEY := getenv environ "SECRET_KEY" "dev-secret-change-me";
              ACCESS_TOKEN_EXPIRE_MINUTES := minutes;
              PRIMARY_ADMIN_EMAIL :=
                Str.lower (getenv environ "PRIMARY_ADMIN_EMAIL" "myemail@domain.com") |}
  end.

Definition ALGORITHM : string := "HS256".

Definition microseconds_per_minute : Z := 60 * 1000000.
Definition microseconds_per_hour : Z := 60 * microseconds_per_minute.

Definition nl : string := String "010"%char "".

(** ** The backend ([src/backend/main.py]) *)

Module Backend.

Section Main.

Context (lib : libraries) (cfg : settings).

Definition verify_password (plain_password : string) (hashed_password : value)
    : outcome bool :=
  Passlib.verify (bcrypt_checksum lib) plain_password hashed_password.

Definition get_password_hash (salt password : string) : string :=
  Passlib.hash (bcrypt_checksum lib) salt password.

(** [expires_delta or timedelta(minutes=...)]: a zero [timedelta] is
    falsy, like [None]. *)
Definition create_access_token (data : dict) (expires_delta : option Z) (now : Z)
    : string :=
  let to_encode := data in
  let dflt := ACCESS_TOKEN_EXPIRE_MINUTES cfg * microseconds_per_minute in
  let delta :=
    match expires_delta with
    | Some d => if d =? 0 then dflt else d
    | None => dflt
    end in
  let expire := now + delta in
  let to_encode := <["exp" := VDate expire]> to_encode in
  Jose.encode (dumps lib) (hmac_sign lib) to_encode (SECRET_KEY cfg) ALGORITHM.

Definition credentials_exception {A} : outcome A :=
  HTTPException 401 "Could not validate credentials".

Definition is_none (v : value) : bool :=
  match v with VNone => true | _ => false end.

(** [ObjectId(x) if isinstance(x, str) and len(x) == 24 else x] *)
Definition filter_id_of (x : value) : outcome value :=
  match x with
  | VStr s =>
      if Nat.eqb (String.length s) 24 then
        match ObjectId.parse s with
        | Some oid => Return (VOid oid)
        | None => Uncaught "InvalidId"
        end
      else Return x
  | _ => Return x
  end.

Definition get_current_user (token : string) (now : Z) (db : database)
    : outcome dict :=
  match Jose.decode (loads lib) (hmac_verify lib) token (SECRET_KEY cfg) [ALGORITHM] now with
  | Jose.JWTError => credentials_exception
  | Jose.Raised e => Uncaught e
  | Jose.Claims payload =>
      let user_id := get_or payload "user_id" VNone in
      let email := get_or payload "email" VNone in
      if (is_none user_id || is_none email)%bool then credentials_exception
      else
        let! filter_id := filter_id_of user_id in
        match Mongo.find_one db "user" {[ "_id" := filter_id ]} with
        | None => credentials_exception
        | Some user => Return (stringify user)
        end
  end.

(** [user.get("email", "").lower() == PRIMARY_ADMIN_EMAIL] *)
Definition is_admin (user : dict) : outcome bool :=
  match get_or user "email" (VStr "") with
  | VStr e => Return (String.eqb (Str.lower e) (PRIMARY_ADMIN_EMAIL cfg))
  | _ => Uncaught "AttributeError"
  end.

Definition signup (payload : UserCreate.t) (request : Request)
    (salt csrf : string) (now : Z) (db : database)
    : outcome Token.t * database :=
  let email := Str.lower (UserCreate.email payload) in
  match get_one db "user" {[ "email" := VStr email ]} with
  | Some _ => (HTTPException 400 "Email already registered", db)
  | None =>
      let hashed := get_password_hash salt (UserCreate.password payload) in
      let '(user_id, db) :=
        create_document "user"
          {[ "email" := VStr email; "password" := VStr hashed;
             "name" := VStr (default "" (UserCreate.name payload)) ]} now db in
      let token :=
        create_access_token
          {[ "user_id" := VStr user_id; "email" := VStr email ]} None now in
      match client request with
      | None => (Uncaught "AttributeError", db)
      | Some addr =>
          let '(_, db) :=
            create_document "activity"
              {[ "user_id" := VStr user_id; "type" := VStr "signup";
                 "ip" := VStr (host addr) ]} now db in
          (Return {| Token.access_token := token; Token.token_type := "bearer";
                     Token.csrf_token := csrf |}, db)
      end
  end.

(** [d[k]], a [KeyError] when the key is missing. *)
Definition item (d : dict) (k : string) : outcome value :=
  match d !! k with
  | Some v => Return v
  | None => Uncaught "KeyError"
  end.

Definition login (form_data : LoginForm.t) (request : option Request)
    (csrf : string) (now : Z) (db : database) : outcome Token.t * database :=
  let invalid := HTTPException 400 "Incorrect email or password" in
  match get_one db "user" {[ "email" := VStr (Str.lower (LoginForm.username form_data)) ]} with
  | None => (invalid, db)
  | Some user =>
      match verify_password (LoginForm.password form_data)
                            (get_or user "password" (VStr "")) with
      | Uncaught e => (Uncaught e, db)
      | HTTPException c d => (HTTPException c d, db)
      | Return false => (invalid, db)
      | Return true =>
          match item user "_id", item user "email" with
          | Return uid, Return email =>
              let token :=
                create_access_token {[ "user_id" := uid; "email" := email ]} None now in
              let ip :=
                match request with
                | None => Return VNone
                | Some r =>
                    match client r with
                    | Some addr => Return (VStr (host addr))
                    | None => Uncaught "AttributeError"
                    end
                end in
              match ip with
              | Return ip =>
                  let '(_, db) :=
                    create_document "activity"
                      {[ "user_id" := uid; "type" := VStr "login"; "ip" := ip ]} now db in
                  (Return {| Token.access_token := token; Token.token_type := "bearer";
                             Token.csrf_token := csrf |}, db)
              | HTTPException c d => (HTTPException c d, db)
              | Uncaught e => (Uncaught e, db)
              end
          | _, _ => (Uncaught "KeyError", db)
          end
      end
  end.

Definition forgot_password (payload : ForgotPasswordRequest.t) (token : string)
    (now : Z) (db : database) : outcome ForgotPasswordResponse.t * database :=
  match get_one db "user"
          {[ "email" := VStr (Str.lower (ForgotPasswordRequest.email payload)) ]} with
  | Some user =>
      match item user "_id" with
      | Return uid =>
          let expires_at := now + microseconds_per_hour in
          let '(_, db) :=
            create_document "passwordreset"
              {[ "user_id" := uid; "token" := VStr token;
                 "expires_at" := VDate expires_at ]} now db in
          (Return {| ForgotPasswordResponse.message := "Reset email sent";
                     ForgotPasswordResponse.token := Some token |}, db)
      | HTTPException c d => (HTTPException c d, db)
      | Uncaught e => (Uncaught e, db)
      end
  | None =>
      (Return {| ForgotPasswordResponse.message :=
                   "If an account exists, a reset email has been sent";
                 ForgotPasswordResponse.token := None |}, db)
  end.

(** [rec.get("expires_at") and rec["expires_at"] < datetime.utcnow()]:
    a falsy field skips the comparison, and only a [datetime] can be
    compared with the clock. *)
Definition is_expired (rec : dict) (now : Z) : outcome bool :=
  let e := get_or rec "expires_at" VNone in
  if truthy e then
    match e with
    | VDate t => Return (t <? now)
    | _ => Uncaught "TypeError"
    end
  else Return false.

Definition reset_password (payload : ResetPasswordRequest.t) (salt : string)
    (now : Z) (db : database) : outcome string * database :=
  let recs :=
    get_documents db "passwordreset"
      (Some {[ "token" := VStr (ResetPasswordRequest.token payload) ]}) 1 in
  match recs with
  | [] => (HTTPException 400 "Invalid token", db)
  | rec :: _ =>
      match is_expired rec now with
      | Return true => (HTTPException 400 "Token expired", db)
      | Return false =>
          let hashed := get_password_hash salt (ResetPasswordRequest.new_password payload) in
          match (let! uid := item rec "user_id" in filter_id_of uid) with
          | Return filter_id =>
              let db :=
                Mongo.update_one "user" {[ "_id" := filter_id ]}
                  {[ "password" := VStr hashed; "updated_at" := VDate now ]} db in
              (Return "Password updated", db)
          | HTTPException c d => (HTTPException c d, db)
          | Uncaught e => (Uncaught e, db)
          end
      | HTTPException c d => (HTTPException c d, db)
      | Uncaught e => (Uncaught e, db)
      end
  end.

Definition admin_overview (current : dict) (db : database)
    : outcome (list dict * list dict) :=
  let! admin := is_admin current in
  if negb admin then HTTPException 403 "Access denied"
  else
    let users := get_documents db "user" (Some ∅) 1000 in
    let activity := get_documents db "activity" (Some ∅) 1000 in
    Return (users, activity).


(** Body validation that FastAPI performs before a handler runs
    ([EmailStr], [Field(min_length=8)]); a rejected body is answered
    with status 422. *)
Definition validation_error {A} : outcome A :=
  HTTPException 422 "Unprocessable Entity".

Definition valid_UserCreate (payload : UserCreate.t) : bool :=
  (EmailStr lib (UserCreate.email payload)
   && Nat.leb 8 (String.length (UserCreate.password payload)))%bool.

Definition valid_ResetPasswordRequest (payload : ResetPasswordRequest.t) : bool :=
  Nat.leb 8 (String.length (ResetPasswordRequest.new_password payload)).

(** [POST /api/auth/signup] *)
Definition post_signup (payload : UserCreate.t) (request : Request)
    (salt csrf : string) (now : Z) (db : database) : outcome Token.t * database :=
  if valid_UserCreate payload then signup payload request salt csrf now db
  else (validation_error, db).

(** [POST /api/auth/reset-password] *)
Definition post_reset_password (payload : ResetPasswordRequest.t) (salt : string)
    (now : Z) (db : database) : outcome string * database :=
  if valid_ResetPasswordRequest payload then reset_password payload salt now db
  else (validation_error, db).


(** [{k: v for k, v in current.items() if k not in {"password"}}] *)
Definition me (current : dict) : dict :=
  filter (fun kv => kv.1 <> "password") current.

(** [GET /api/auth/me] with its [Depends(get_current_user)]. *)
Definition get_me (token : string) (now : Z) (db : database) : outcome dict :=
  let! current := get_current_user token now db in
  Return (me current).

End Main.

End Backend.

(** ** The stand-alone application ([src/main.py]) *)

Module App.

Module ProjectInput.
Record t : Type := {
  title : string; description : string;
  technologies : option (list string);
  audience : option string; tone : option string
}.
End ProjectInput.

(** The OpenAI client library: building a client from a key ([None] when
    the import or the constructor raises) and one chat completion, which
    raises ([None]) or yields a message content that may itself be
    [None]. *)
Record provider : Type := {
  client_t : Type;
  OpenAI : string -> option client_t;
  chat_completions_create :
    client_t -> string -> list (string * string) -> string -> option (option string)
}.

Section Generate.

Context (openai : provider) (environ : gmap string string).

Definition get_openai_client : option (client_t openai) :=
  match environ !! "OPENAI_API_KEY" with
  | None => None
  | Some api_key => if String.eqb api_key "" then None else OpenAI openai api_key
  end.

Definition system_prompt : string :=
  "You are PortfolioPal, an expert portfolio and project description writer. Be concise, clear, and engaging.".

Definition disclaimer : list string :=
  [ "Thanks for trying PortfolioPal!";
    "This is a locally generated sample response because no AI key was detected.";
    "Add OPENAI_API_KEY to enable real AI results." ].


Definition fallback (prompt : string) : string :=
  "[AI Fallback] " ++
  Str.join nl (disclaimer ++ [(nl ++ "---" ++ nl)%string; Str.take 1000 prompt])%list.

Definition ai_generate (prompt : string) : string :=
  match get_openai_client with
  | Some c =>
      match chat_completions_create openai c "gpt-4o-mini"
              [("system", system_prompt); ("user", prompt)] "0.7" with
      | Some content => default "" content
      | None => fallback prompt
      end
  | None => fallback prompt
  end.





End Generate.

End App.

(** ** Vocabulary of the statements *)

Definition users (db : database) : list document := Mongo.col db "user".


(** What the backend relies on from base64url/JSON and HMAC: a segment
    decodes to the dictionary it encodes, segments contain no dot, and a
    signature verifies under the key that made it. *)
Record codec_laws (lib : libraries) : Prop := {
  loads_dumps : forall d, loads lib (dumps lib d) = Some d;
  dumps_no_dot : forall d, Str.mem "." (dumps lib d) = false;
  sign_no_dot : forall key msg, Str.mem "." (hmac_sign lib key msg) = false;
  verify_sign : forall key msg, hmac_verify lib key msg (hmac_sign lib key msg) = true
}.


(** No registered user has this email, compared without regard to case. *)
Definition email_free (db : database) (email : string) : Prop :=
  forall u e, u ∈ users db -> doc_fields u !! "email" = Some (VStr e) ->
    Str.lower e <> Str.lower email.

(** The instant, in microseconds, up to which a token issued at [now] is
    accepted. *)
Definition session_deadline (cfg : settings) (now : Z) : Z :=
  now + ACCESS_TOKEN_EXPIRE_MINUTES cfg * microseconds_per_minute.

(** The fields [create_document] stores for [data]. *)
Definition stamped (data : dict) (now : Z) : dict :=
  <["updated_at" := get_or data "updated_at" (VDate now)]>
    (<["created_at" := get_or data "created_at" (VDate now)]> data).

(** The user document [signup] stores. *)
Definition new_user (lib : libraries) (payload : UserCreate.t) (salt : string)
    (now : Z) (oid : N) : document :=
  {| doc_id := oid;
     doc_fields :=
       stamped {[ "email" := VStr (Str.lower (UserCreate.email payload));
                  "password" := VStr (Backend.get_password_hash lib salt (UserCreate.password payload));
                  "name" := VStr (default "" (UserCreate.name payload)) ]} now |}.


(** The reset records a submitted token selects: the first one storing it,
    if any. *)
Definition reset_records (db : database) (token : string) : list dict :=
  get_documents db "passwordreset" (Some {[ "token" := VStr token ]}) 1.



(** The instant at which a token made by [create_access_token] expires. *)
Definition token_deadline (cfg : settings) (expires_delta : option Z) (now : Z) : Z :=
  now + match expires_delta with
        | Some d => if d =? 0 then ACCESS_TOKEN_EXPIRE_MINUTES cfg * microseconds_per_minute
                    else d
        | None => ACCESS_TOKEN_EXPIRE_MINUTES cfg * microseconds_per_minute
        end.


(** One user per normalized email: identifiers are distinct numbers the
    store has handed out, every user has an email, a string in lowercase,
    and no two users have the same one. *)
Record store_inv (db : database) : Prop := {
  inv_bound : (next_oid db < 2 ^ 96)%N;
  inv_issued : forall u, u ∈ users db -> (doc_id u < next_oid db)%N;
  inv_ids : NoDup (doc_id <$> users db);
  inv_lower : forall u, u ∈ users db ->
                exists s, doc_fields u !! "email" = Some (VStr s) /\ Str.lower s = s;
  inv_emails : NoDup ((fun u => doc_fields u !! "email") <$> users db)
}.

(** The activity entry a handler appends for a user. *)
Definition activity_entry (oid : N) (user_id : value) (kind : string) (ip : value)
    (now : Z) : document :=
  {| doc_id := oid;
     doc_fields :=
       stamped {[ "user_id" := user_id; "type" := VStr kind; "ip" := ip ]} now |}.




(** The ways a presented session token can fail, as the library sees them.
    A correctly signed payload is only looked at when its registered claims
    can be read at all, that is, when validation does not die of a
    [TypeError] on a claim that is no number. *)
Section Rejection.

Context (lib : libraries) (cfg : settings).



End Rejection.


(** ** An executable stand-in for the libraries

    A codec that writes a dictionary as the binary digits of its code, a
    keyed length checksum in the same alphabet, and a digest that pads the secret to
    31 characters.  None of them is cryptography; they let the handlers run
    on concrete requests. *)

Module Reference.

Definition value_to_sum (v : value) : unit + bool + Z + string + Z + N :=
  match v with
  | VNone => inl (inl (inl (inl (inl tt))))
  | VBool b => inl (inl (inl (inl (inr b))))
  | VInt z => inl (inl (inl (inr z)))
  | VStr s => inl (inl (inr s))
  | VDate t => inl (inr t)
  | VOid n => inr n
  end.

Definition value_of_sum (x : unit + bool + Z + string + Z + N) : value :=
  match x with
  | inl (inl (inl (inl (inl _)))) => VNone
  | inl (inl (inl (inl (inr b)))) => VBool b
  | inl (inl (inl (inr z))) => VInt z
  | inl (inl (inr s)) => VStr s
  | inl (inr t) => VDate t
  | inr n => VOid n
  end.

#[global] Instance value_countable : Countable value.
Proof.
  apply (inj_countable' value_to_sum value_of_sum).
  intros []; reflexivity.
Defined.

Fixpoint bits (p : positive) : string :=
  match p with
  | xH => EmptyString
  | xO p' => String "0" (bits p')
  | xI p' => String "1" (bits p')
  end.

Fixpoint of_bits (s : string) : option positive :=
  match s with
  | EmptyString => Some xH
  | String c s' =>
      if Ascii.eqb c "0" then xO <$> of_bits s'
      else if Ascii.eqb c "1" then xI <$> of_bits s'
      else None
  end.

Definition ref_dumps (d : dict) : string := bits (encode d).
Definition ref_loads (s : string) : option dict :=
  match of_bits s with
  | Some p => decode p
  | None => None
  end.

Definition ref_sign (key msg : string) : string :=
  bits (Pos.of_succ_nat (String.length key + 3 * String.length msg)).
Definition ref_verify (key msg sig : string) : bool := String.eqb sig (ref_sign key msg).

Definition ref_checksum (_ : string) (_ : Z) (salt secret : string) : string :=
  Str.take 31 (secret ++ salt ++ ".........").

Definition ref_email (s : string) : bool := Str.mem "@" s.

Definition lib : libraries :=
  {| bcrypt_checksum := ref_checksum;
     dumps := ref_dumps; loads := ref_loads;
     hmac_sign := ref_sign; hmac_verify := ref_verify;
     EmailStr := ref_email |}.

Definition cfg : settings :=
  default {| SECRET_KEY := ""; ACCESS_TOKEN_EXPIRE_MINUTES := 0; PRIMARY_ADMIN_EMAIL := "" |}
          (load_settings ∅).

Definition empty_db : database := {| collections := ∅; next_oid := 0 |}.

Definition salt1 : string := "abcdefghijklmnopqrstuv".
Definition salt2 : string := "ABCDEFGHIJKLMNOPQRSTUV".

Definition alice : UserCreate.t :=
  {| UserCreate.email := "Alice@X.com"; UserCreate.password := "password123";
     UserCreate.name := Some "Alice" |}.

Definition alice_again : UserCreate.t :=
  {| UserCreate.email := "ALICE@x.COM"; UserCreate.password := "another-password";
     UserCreate.name := None |}.

Definition forgot : ForgotPasswordRequest.t :=
  {| ForgotPasswordRequest.email := "alice@x.com" |}.

Definition renew : ResetPasswordRequest.t :=
  {| ResetPasswordRequest.token := "reset-token";
     ResetPasswordRequest.new_password := "newpassword1" |}.

Definition req : Request := {| client := Some {| host := "127.0.0.1"; port := 50000 |} |}.

(** The store after Alice has signed up at time 1000, and after she has
    then asked for a reset token at time 2000. *)
Definition db_alice : database :=
  snd (Backend.signup lib cfg alice req salt1 "csrf" 1000 empty_db).

Definition db_reset : database :=
  snd (Backend.forgot_password forgot "reset-token" 2000 db_alice).

(** The document stored for Alice. *)
Definition alice_doc : document := new_user lib alice salt1 1000 0.

(** The token her signup returned, and that token under a forged signature. *)
Definition alice_token : string :=
  match fst (Backend.signup lib cfg alice req salt1 "csrf" 1000 empty_db) with
  | Return tok => Token.access_token tok
  | _ => ""
  end.

Definition tampered_token : string :=
  match Jose.split_token alice_token with
  | Some t => Jose.signing_input t ++ "." ++ Jose.crypto_segment t ++ "1"
  | None => ""
  end.








(** Providers that fail, and one that answers without content. *)
Definition no_client : App.provider :=
  {| App.client_t := unit;
     App.OpenAI := fun _ => None;
     App.chat_completions_create := fun _ _ _ _ => Some (Some "unused") |}.

Definition failing_call : App.provider :=
  {| App.client_t := unit;
     App.OpenAI := fun _ => Some tt;
     App.chat_completions_create := fun _ _ _ _ => None |}.

Definition empty_answer : App.provider :=
  {| App.client_t := unit;
     App.OpenAI := fun _ => Some tt;
     App.chat_completions_create := fun _ _ _ _ => Some None |}.

Definition with_key : gmap string string := {[ "OPENAI_API_KEY" := "sk-test" ]}.



(** A provider that always answers, and two project descriptions. *)
Definition openai : App.provider :=
  {| App.client_t := unit;
     App.OpenAI := fun _ => Some tt;
     App.chat_completions_create := fun _ _ _ _ => Some (Some "generated text") |}.



End Reference.

(** * Properties *)

(** ** Strings *)

Module StrFacts.


Lemma all_app p a b : Str.all p (a ++ b) = (Str.all p a && Str.all p b)%bool.
Proof.
  induction a as [|x a IH]; simpl; [reflexivity|].
  rewrite IH. apply andb_assoc.
Qed.

Lemma length_app a b : String.length (a ++ b) = (String.length a + String.length b)%nat.
Proof. induction a as [|x a IH]; simpl; [reflexivity|]. now rewrite IH. Qed.





Lemma take_all n s : (String.length s <= n)%nat -> Str.take n s = s.
Proof.
  revert n. induction s as [|x s IH]; intros [|n] H; simpl in *; try reflexivity; try lia.
  rewrite IH; [reflexivity | lia].
Qed.

Lemma startswith_app p s : Str.startswith p (p ++ s) = true.
Proof.
  induction p as [|x p IH]; simpl; [reflexivity|].
  now rewrite Ascii.eqb_refl, IH.
Qed.







Lemma split_last_none sep s : Str.mem sep s = false -> Str.split_last sep s = None.
Proof.
  induction s as [|x s IH]; simpl; [reflexivity|].
  intros H. apply orb_false_iff in H as [Hx Hs].
  rewrite (IH Hs). rewrite Ascii.eqb_sym, Hx. reflexivity.
Qed.

Lemma split_last_app sep a b :
  Str.mem sep b = false -> Str.split_last sep (a ++ String sep b) = Some (a, b).
Proof.
  intros Hb. induction a as [|x a IH]; simpl.
  - rewrite (split_last_none _ _ Hb), Ascii.eqb_refl. reflexivity.
  - rewrite IH. reflexivity.
Qed.

Lemma split_first_app sep a b :
  Str.mem sep a = false -> Str.split_first sep (a ++ String sep b) = Some (a, b).
Proof.
  induction a as [|x a IH]; simpl; intros Ha.
  - now rewrite Ascii.eqb_refl.
  - apply orb_false_iff in Ha as [Hx Ha].
    rewrite Ascii.eqb_sym, Hx, (IH Ha). reflexivity.
Qed.


End StrFacts.

(** ** ObjectId text round trip *)

Module ObjectIdFacts.

Lemma hex_val_digit d : (d < 16)%N -> ObjectId.hex_val (ObjectId.hex_digit d) = Some d.
Proof.
  intros H. destruct d as [|p]; [reflexivity|].
  do 4 (destruct p as [p|p|]; try reflexivity); lia.
Qed.

Lemma length_to_hex k : forall n acc,
  String.length (ObjectId.to_hex k n acc) = (k + String.length acc)%nat.
Proof.
  induction k as [|k IH]; intros n acc; simpl; [reflexivity|].
  rewrite IH. simpl. lia.
Qed.

Lemma of_hex_to_hex k : forall n acc a,
  ObjectId.of_hex (ObjectId.to_hex k n acc) a
  = ObjectId.of_hex acc (a * 16 ^ N.of_nat k + n mod 16 ^ N.of_nat k)%N.
Proof.
  induction k as [|k IH]; intros n acc a.
  - simpl. rewrite N.mod_1_r. f_equal. lia.
  - cbn [ObjectId.to_hex]. rewrite IH. cbn [ObjectId.of_hex].
    rewrite hex_val_digit by (apply N.mod_lt; lia).
    f_equal.
    rewrite Nnat.Nat2N.inj_succ, N.pow_succ_r'.
    rewrite (N.Div0.mod_mul_r n 16 (16 ^ N.of_nat k)). lia.
Qed.

Lemma length_str n : String.length (ObjectId.str n) = 24%nat.
Proof. unfold ObjectId.str. now rewrite length_to_hex. Qed.

Lemma parse_str n : (n < 2 ^ 96)%N -> ObjectId.parse (ObjectId.str n) = Some n.
Proof.
  intros H. unfold ObjectId.parse. rewrite length_str. simpl Nat.eqb. cbv iota.
  unfold ObjectId.str. rewrite of_hex_to_hex. simpl ObjectId.of_hex.
  f_equal. change (16 ^ N.of_nat 24)%N with (2 ^ 96)%N.
  rewrite N.mod_small by exact H. lia.
Qed.

End ObjectIdFacts.

(** ** Password hashing *)

Module PasslibFacts.

Section Facts.

Variable digest : string -> Z -> string -> string -> string.






Lemma verify_unidentified secret h :
  Passlib.identify h = false ->
  Passlib.verify digest secret (VStr h) = Uncaught "UnknownHashError".
Proof. intros H. unfold Passlib.verify. now rewrite H. Qed.

Lemma verify_never_false_on_malformed secret h :
  Passlib.from_string h = None ->
  exists exn, Passlib.verify digest secret (VStr h) = Uncaught exn.
Proof.
  intros H. unfold Passlib.verify. rewrite H.
  destruct (Passlib.identify h); eauto.
Qed.

End Facts.

End PasslibFacts.

(** ** Session tokens *)

Module JoseFacts.

Section Facts.

Context (lib : libraries) (laws : codec_laws lib).

Lemma split_token_join h p s :
  Str.mem "." h = false -> Str.mem "." s = false ->
  Jose.split_token ((h ++ "." ++ p) ++ "." ++ s)
  = Some {| Jose.signing_input := h ++ "." ++ p; Jose.header_segment := h;
            Jose.claims_segment := p; Jose.crypto_segment := s |}.
Proof.
  intros Hh Hs. unfold Jose.split_token.
  change ("." ++ s) with (String "." s). rewrite (StrFacts.split_last_app _ _ _ Hs).
  change ("." ++ p) with (String "." p). rewrite (StrFacts.split_first_app _ _ _ Hh).
  reflexivity.
Qed.

Lemma header_allowed alg : Jose.alg_allowed (Jose.jwt_header alg) [alg] = true.
Proof.
  unfold Jose.alg_allowed, Jose.jwt_header.
  rewrite lookup_insert_eq. simpl. now rewrite String.eqb_refl.
Qed.

(** A token decodes to the claims it was made from, once their time
    claims are turned into seconds, whenever those claims pass
    validation at the time of decoding. *)
Lemma decode_encode claims key alg now :
  let claims' := fold_left Jose.to_timestamp ["exp"; "iat"; "nbf"] claims in
  Jose.validate_claims claims' (now / 1000000) = Jose.Pass ->
  Jose.decode (loads lib) (hmac_verify lib)
    (Jose.encode (dumps lib) (hmac_sign lib) claims key alg) key [alg] now
  = Jose.Claims claims'.
Proof.
  intros claims' Hv. unfold Jose.decode, Jose.encode. fold claims'.
  rewrite split_token_join by (apply dumps_no_dot || apply sign_no_dot; exact laws).
  cbn [Jose.header_segment Jose.signing_input Jose.crypto_segment Jose.claims_segment].
  rewrite !(loads_dumps lib laws), header_allowed, (verify_sign lib laws), Hv.
  reflexivity.
Qed.

Context (cfg : settings).


End Facts.

End JoseFacts.

(** ** The document store *)

Module MongoFacts.

Lemma head_filter_None {A} (f : A -> bool) (l : list A) :
  head (List.filter f l) = None <-> forall x, x ∈ l -> f x = false.
Proof.
  induction l as [|a l IH]; simpl.
  - split; [intros _ x Hx; inversion Hx | reflexivity].
  - destruct (f a) eqn:Ha; simpl.
    + split; [discriminate|]. intros H. specialize (H a (list_elem_of_here _ _)). congruence.
    + rewrite IH. split.
      * intros H x Hx. apply elem_of_cons in Hx as [->|Hx]; auto.
      * intros H x Hx. apply H. now apply list_elem_of_further.
Qed.

Lemma head_filter_Some {A} (f : A -> bool) (l : list A) u :
  head (List.filter f l) = Some u -> u ∈ l /\ f u = true.
Proof.
  induction l as [|a l IH]; simpl; [discriminate|].
  destruct (f a) eqn:Ha; simpl.
  - intros [= <-]. split; [apply list_elem_of_here | exact Ha].
  - intros H. destruct (IH H). split; [now apply list_elem_of_further | assumption].
Qed.



Lemma as_dict_id d : Mongo.as_dict d !! "_id" = Some (VOid (doc_id d)).
Proof. unfold Mongo.as_dict. apply lookup_insert_eq. Qed.

Lemma as_dict_field d k : k <> "_id" -> Mongo.as_dict d !! k = doc_fields d !! k.
Proof. intros H. unfold Mongo.as_dict. now rewrite lookup_insert_ne. Qed.

Lemma stringify_id d : stringify d !! "_id" = Some (VStr (ObjectId.str (doc_id d))).
Proof. unfold stringify. apply lookup_insert_eq. Qed.

Lemma stringify_field d k : k <> "_id" -> stringify d !! k = doc_fields d !! k.
Proof.
  intros H. unfold stringify. rewrite lookup_insert_ne by done. now apply as_dict_field.
Qed.

Lemma matches_singleton k v d :
  Mongo.matches {[ k := v ]} d = bool_decide (Mongo.as_dict d !! k = Some v).
Proof.
  unfold Mongo.matches. apply bool_decide_ext.
  apply (map_Forall_singleton (fun k v => Mongo.as_dict d !! k = Some v)).
Qed.

Lemma matches_empty d : Mongo.matches ∅ d = true.
Proof. unfold Mongo.matches. apply bool_decide_eq_true. apply map_Forall_empty. Qed.

Lemma matches_id n d : Mongo.matches {[ "_id" := VOid n ]} d = true <-> doc_id d = n.
Proof.
  rewrite matches_singleton, bool_decide_eq_true, as_dict_id. split; congruence.
Qed.

Lemma matches_id_str s d : Mongo.matches {[ "_id" := VStr s ]} d = false.
Proof.
  rewrite matches_singleton, bool_decide_eq_false, as_dict_id. congruence.
Qed.

Lemma matches_field k v d :
  k <> "_id" -> (Mongo.matches {[ k := v ]} d = true <-> doc_fields d !! k = Some v).
Proof.
  intros H. now rewrite matches_singleton, bool_decide_eq_true, as_dict_field.
Qed.

Lemma col_insert_one name data db :
  Mongo.col (snd (Mongo.insert_one name data db)) name
  = (Mongo.col db name ++ [{| doc_id := next_oid db; doc_fields := data |}])%list.
Proof. unfold Mongo.col at 1. simpl. now rewrite lookup_insert_eq. Qed.

Lemma col_insert_one_other name name' data db :
  name <> name' ->
  Mongo.col (snd (Mongo.insert_one name data db)) name' = Mongo.col db name'.
Proof. intros H. unfold Mongo.col. simpl. now rewrite lookup_insert_ne. Qed.

Lemma col_update_one name flt upd db :
  Mongo.col (Mongo.update_one name flt upd db) name
  = Mongo.update_first flt upd (Mongo.col db name).
Proof. unfold Mongo.col at 1. simpl. now rewrite lookup_insert_eq. Qed.


Lemma create_document_spec name data now db :
  exists db',
    create_document name data now db = (ObjectId.str (next_oid db), db') /\
    next_oid db' = N.succ (next_oid db) /\
    Mongo.col db' name
    = (Mongo.col db name ++ [{| doc_id := next_oid db; doc_fields := stamped data now |}])%list /\
    forall name', name <> name' -> Mongo.col db' name' = Mongo.col db name'.
Proof.
  unfold create_document. fold (stamped data now).
  destruct (Mongo.insert_one name (stamped data now) db) as [oid db'] eqn:E.
  exists db'.
  assert (Hoid : oid = next_oid db) by (unfold Mongo.insert_one in E; congruence).
  assert (Hdb : db' = snd (Mongo.insert_one name (stamped data now) db)) by now rewrite E.
  subst oid. split; [reflexivity|]. subst db'. split; [reflexivity|]. split.
  - apply col_insert_one.
  - intros name' H. now apply col_insert_one_other.
Qed.

End MongoFacts.

(** ** Session verification *)





(** The token Alice receives at signup, and the same token with its
    signature segment replaced. *)
Example alice_token_accepted_before_deadline :
  exists current,
    Backend.get_current_user Reference.lib Reference.cfg Reference.alice_token
      (session_deadline Reference.cfg 1000) Reference.db_alice = Return current /\
    current !! "email" = Some (VStr "alice@x.com").
Proof. eexists. split; vm_compute; reflexivity. Qed.

Example alice_token_rejected_after_deadline :
  Backend.get_current_user Reference.lib Reference.cfg Reference.alice_token
    (session_deadline Reference.cfg 1000 + 1000000) Reference.db_alice
  = HTTPException 401 "Could not validate credentials".
Proof. vm_compute. reflexivity. Qed.

Example tampered_token_rejected :
  Backend.get_current_user Reference.lib Reference.cfg Reference.tampered_token
    2000 Reference.db_alice
  = HTTPException 401 "Could not validate credentials".
Proof. vm_compute. reflexivity. Qed.

(** ** Signup *)

Lemma lower_char_idem c : Str.lower_char (Str.lower_char c) = Str.lower_char c.
Proof. destruct c as [[] [] [] [] [] [] [] []]; reflexivity. Qed.

Lemma lower_idem s : Str.lower (Str.lower s) = Str.lower s.
Proof.
  induction s as [|c s IH]; simpl; [reflexivity|].
  now rewrite lower_char_idem, IH.
Qed.

Lemma get_one_None db name flt :
  get_one db name flt = None <-> forall u, u ∈ Mongo.col db name -> Mongo.matches flt u = false.
Proof.
  unfold get_one, Mongo.find_one, Mongo.find.
  rewrite <- MongoFacts.head_filter_None.
  destruct (head _); simpl; split; congruence.
Qed.









(** ** The stand-in libraries satisfy the laws *)

Module ReferenceFacts.

Lemma of_bits_bits p : Reference.of_bits (Reference.bits p) = Some p.
Proof. induction p as [p IH|p IH|]; simpl; try rewrite IH; reflexivity. Qed.

Lemma bits_no_dot p : Str.mem "." (Reference.bits p) = false.
Proof. induction p as [p IH|p IH|]; simpl; try rewrite IH; reflexivity. Qed.

Lemma codec_ok : codec_laws Reference.lib.
Proof.
  split; cbn [loads dumps hmac_sign hmac_verify Reference.lib].
  - intros d. unfold Reference.ref_loads, Reference.ref_dumps.
    rewrite of_bits_bits. apply decode_encode.
  - intros d. apply bits_no_dot.
  - intros key msg. apply bits_no_dot.
  - intros key msg. apply String.eqb_refl.
Qed.




End ReferenceFacts.


Lemma signup_success_inv lib cfg payload request salt csrf now db tok db1 :
  Backend.signup lib cfg payload request salt csrf now db = (Return tok, db1) ->
  users db1 = (users db ++ [new_user lib payload salt now (next_oid db)])%list.
Proof.
  unfold Backend.signup.
  destruct (get_one db "user" _); [discriminate|].
  match goal with |- context [create_document "user" ?d now db] =>
    destruct (MongoFacts.create_document_spec "user" d now db)
      as (db' & E1 & Hn1 & Hu1 & Ho1) end.
  rewrite E1. destruct (client request) as [addr|]; [|discriminate].
  match goal with |- context [create_document "activity" ?d now db'] =>
    destruct (MongoFacts.create_document_spec "activity" d now db')
      as (db2 & E2 & Hn2 & Hu2 & Ho2) end.
  rewrite E2. intros [= _ <-].
  unfold users. rewrite Ho2 by done. exact Hu1.
Qed.

(** C8.  Once a signup has succeeded, a further valid signup request whose
    email is the same up to letter case is answered with 400
    "Email already registered", and the store, the user collection
    included, is left exactly as it was. *)
Theorem second_signup_is_refused lib cfg first second request1 request2
    salt1 salt2 csrf1 csrf2 now1 now2 db tok db1 :
  Backend.post_signup lib cfg first request1 salt1 csrf1 now1 db = (Return tok, db1) ->
  Backend.valid_UserCreate lib second = true ->
  Str.lower (UserCreate.email second) = Str.lower (UserCreate.email first) ->
  Backend.post_signup lib cfg second request2 salt2 csrf2 now2 db1
  = (HTTPException 400 "Email already registered", db1).
Proof.
  intros Hfirst Hvalid Hsame. unfold Backend.post_signup in *.
  rewrite Hvalid.
  destruct (Backend.valid_UserCreate lib first); [|discriminate].
  apply signup_success_inv in Hfirst.
  unfold Backend.signup.
  destruct (get_one db1 "user" _) as [existing|] eqn:Hget; [reflexivity|].
  exfalso. rewrite get_one_None in Hget.
  specialize (Hget (new_user lib first salt1 now1 (next_oid db))).
  fold (users db1) in Hget. rewrite Hfirst in Hget.
  rewrite elem_of_app, list_elem_of_singleton in Hget.
  specialize (Hget (or_intror eq_refl)).
  apply not_true_iff_false in Hget. apply Hget.
  apply MongoFacts.matches_field; [done|].
  unfold new_user, stamped. cbn [doc_fields].
  rewrite !lookup_insert_ne by done. rewrite lookup_insert_eq. now rewrite Hsame.
Qed.

Lemma second_signup_is_refused_witness :
  let db1 :=
    snd (Backend.post_signup Reference.lib Reference.cfg Reference.alice Reference.req
           Reference.salt1 "csrf" 1000 Reference.empty_db) in
  Backend.post_signup Reference.lib Reference.cfg Reference.alice_again Reference.req
    Reference.salt2 "csrf2" 2000 db1
  = (HTTPException 400 "Email already registered", db1).
Proof.
  intros db1.
  eapply (second_signup_is_refused Reference.lib Reference.cfg Reference.alice
            Reference.alice_again Reference.req Reference.req Reference.salt1 Reference.salt2
            "csrf" "csrf2" 1000 2000 Reference.empty_db).
  - unfold db1. vm_compute. reflexivity.
  - reflexivity.
  - reflexivity.
Defined.

(** ** Login *)





(** ** Password reset *)

Lemma is_expired_true rec now :
  Backend.is_expired rec now = Return true <->
  exists t, rec !! "expires_at" = Some (VDate t) /\ t < now.
Proof.
  unfold Backend.is_expired, get_or.
  destruct (rec !! "expires_at") as [[| b | z | s | t | n]|]; cbn [default from_option id truthy].
  - split; [discriminate | intros (t & [=] & _)].
  - destruct b; (split; [discriminate | intros (t & [=] & _)]).
  - destruct (negb (z =? 0)); (split; [discriminate | intros (t & [=] & _)]).
  - destruct (negb (String.eqb s "")); (split; [discriminate | intros (t & [=] & _)]).
  - split.
    + intros [= H]. exists t. split; [reflexivity | now apply Z.ltb_lt].
    + intros (t' & [= <-] & H). f_equal. now apply Z.ltb_lt.
  - split; [discriminate | intros (t & [=] & _)].
  - split; [discriminate | intros (t & [=] & _)].
Qed.


Lemma is_expired_no_http rec now c d : Backend.is_expired rec now <> HTTPException c d.
Proof.
  unfold Backend.is_expired.
  destruct (truthy _); [|discriminate]. now destruct (get_or rec "expires_at" VNone).
Qed.

Lemma filter_id_no_http rec c d :
  (let! uid := Backend.item rec "user_id" in Backend.filter_id_of uid) <> HTTPException c d.
Proof.
  unfold Backend.item. destruct (rec !! "user_id") as [v|]; cbn [bind]; [|discriminate].
  unfold Backend.filter_id_of. destruct v; try discriminate.
  destruct (Nat.eqb _ _); [|discriminate]. now destruct (ObjectId.parse s).
Qed.

(** C4, as the code has it.  [reset_password] raises an [HTTPException]
    in exactly two situations, both with status 400: with detail
    "Invalid token" when no reset record stores the submitted token, and
    with detail "Token expired" when the first record storing it has an
    expiry strictly earlier than the current time.  In either case the store
    is left untouched.  A token submitted at the very instant of its expiry
    is therefore not rejected. *)
Theorem reset_rejection_exact lib payload salt now db :
  let recs := reset_records db (ResetPasswordRequest.token payload) in
  let result := Backend.reset_password lib payload salt now db in
  (forall c d,
      fst result = HTTPException c d <->
      c = 400 /\
      ((d = "Invalid token" /\ recs = []) \/
       (d = "Token expired" /\
        exists rec rest t, recs = rec :: rest /\
                           rec !! "expires_at" = Some (VDate t) /\ t < now))) /\
  (forall c d, fst result = HTTPException c d -> snd result = db).
Proof.
  intros recs result. subst result. unfold Backend.reset_password.
  fold (reset_records db (ResetPasswordRequest.token payload)). fold recs.
  destruct recs as [|rec rest] eqn:Hrecs.
  - split; [|reflexivity]. intros c d. cbn [fst]. split.
    + intros [= <- <-]. split; [reflexivity|]. left. split; reflexivity.
    + intros (-> & [(-> & _) | (_ & r & rs & t & [=] & _)]). reflexivity.
  - destruct (Backend.is_expired rec now) as [[|] | c0 d0 | e] eqn:Hexp.
    + split; [|reflexivity]. intros c d. cbn [fst]. split.
      * intros [= <- <-]. split; [reflexivity|]. right. split; [reflexivity|].
        apply is_expired_true in Hexp as (t & Ht & Hlt). eauto 6.
      * intros (-> & [(_ & [=]) | (-> & _)]). reflexivity.
    + pose proof (filter_id_no_http rec) as Hno.
      destruct (let! uid := Backend.item rec "user_id" in Backend.filter_id_of uid)
        as [fid | c1 d1 | e1].
      * split; [|discriminate]. intros c d. cbn [fst]. split; [discriminate|].
        intros (_ & [(_ & [=]) | (_ & r & rs & t & Hc & Ht & Hlt)]).
        injection Hc as Hr _. subst r.
        assert (Backend.is_expired rec now = Return true) as E
          by (apply is_expired_true; eauto).
        congruence.
      * now destruct (Hno c1 d1).
      * split; [|discriminate]. intros c d. cbn [fst]. split; [discriminate|].
        intros (_ & [(_ & [=]) | (_ & r & rs & t & Hc & Ht & Hlt)]).
        injection Hc as Hr _. subst r.
        assert (Backend.is_expired rec now = Return true) as E
          by (apply is_expired_true; eauto).
        congruence.
    + now destruct (is_expired_no_http rec now c0 d0).
    + split; [|discriminate]. intros c d. cbn [fst]. split; [discriminate|].
      intros (_ & [(_ & [=]) | (_ & r & rs & t & Hc & Ht & Hlt)]).
      injection Hc as Hr _. subst r.
      assert (Backend.is_expired rec now = Return true) as E
        by (apply is_expired_true; eauto).
      congruence.
Qed.

(** C4, as the specification words it, fails at the boundary: a reset
    record whose expiry is the current instant (so that the current time is
    greater than or equal to the expiry) is honoured, not rejected. *)
Lemma reset_at_expiry_instant_is_accepted :
  exists rec,
    reset_records Reference.db_reset "reset-token" = [rec] /\
    rec !! "expires_at" = Some (VDate 3600002000) /\
    3600002000 >= 3600002000 /\
    fst (Backend.post_reset_password Reference.lib Reference.renew Reference.salt2
           3600002000 Reference.db_reset)
    = Return "Password updated".
Proof.
  eexists. split; [vm_compute; reflexivity|].
  split; [vm_compute; reflexivity|].
  split; [lia|]. vm_compute. reflexivity.
Qed.


Lemma filter_id_of_str n :
  (n < 2 ^ 96)%N -> Backend.filter_id_of (VStr (ObjectId.str n)) = Return (VOid n).
Proof.
  intros H. unfold Backend.filter_id_of.
  now rewrite ObjectIdFacts.length_str, (ObjectIdFacts.parse_str _ H).
Qed.



Module ScenarioFacts.





End ScenarioFacts.









(** ** Hash verification on malformed input *)

(** C7, evaluated on the code.  [verify_password] hands its arguments to
    [pwd_context.verify] and catches nothing.  For the empty string, the
    value [login] substitutes for a missing hash, the call raises
    [UnknownHashError]; for every string that does not parse as a bcrypt
    hash it raises and never returns [False]; and a login for a stored user
    without a password field ends in that uncaught exception instead of the
    400 response. *)
Theorem verify_password_raises_on_malformed_hash lib :
  (forall plain, Backend.verify_password lib plain (VStr "") = Uncaught "UnknownHashError") /\
  (forall plain hashed,
      match Passlib.from_string hashed with
      | None => exists exn, Backend.verify_password lib plain (VStr hashed) = Uncaught exn
      | Some _ => True
      end) /\
  (forall cfg form request csrf now db user,
      get_one db "user" {[ "email" := VStr (Str.lower (LoginForm.username form)) ]} = Some user ->
      user !! "password" = None ->
      Backend.login lib cfg form request csrf now db = (Uncaught "UnknownHashError", db)).
Proof.
  split; [|split].
  - intros plain. reflexivity.
  - intros plain hashed. destruct (Passlib.from_string hashed) eqn:E; [exact I|].
    now apply PasslibFacts.verify_never_false_on_malformed.
  - intros cfg form request csrf now db user Hget Hpw.
    unfold Backend.login. rewrite Hget. unfold get_or. rewrite Hpw. reflexivity.
Qed.

Lemma verify_password_raises_on_malformed_hash_witness :
  Backend.verify_password Reference.lib "password123" (VStr "")
  = Uncaught "UnknownHashError" /\
  (exists exn,
      Backend.verify_password Reference.lib "password123" (VStr "$2b$12$tooshort")
      = Uncaught exn) /\
  Backend.verify_password Reference.lib "password123" (VStr "not-a-hash")
  = Uncaught "UnknownHashError".
Proof.
  destruct (verify_password_raises_on_malformed_hash Reference.lib) as (Hempty & Hmal & _).
  split; [apply Hempty|]. split.
  - exact (Hmal "password123" "$2b$12$tooshort").
  - reflexivity.
Defined.

(** ** The admin gate *)

Lemma get_documents_limit db name flt limit :
  limit <> O -> (List.length (get_documents db name flt limit) <= limit)%nat.
Proof.
  intros H. unfold get_documents. rewrite length_map.
  destruct limit; [congruence|]. apply List.firstn_le_length.
Qed.



(** ** Text generation *)





(** * Further properties of the code *)

(** ** The store adapter *)



(** X2.  [get_one] and [get_documents] agree: asking [get_documents] for
    one document under a filter gives the document [get_one] finds, or
    nothing when [get_one] finds none. *)
Theorem get_one_is_first_of_get_documents db name flt :
  get_documents db name (Some flt) 1 = option_list (get_one db name flt).
Proof.
  unfold get_documents, get_one, Mongo.find_one. cbn [default from_option id].
  destruct (Mongo.find db name flt) as [|d rest]; reflexivity.
Qed.

(** X3.  A limit cuts the unlimited answer: with a limit other than 0,
    [get_documents] returns the first [limit] documents of what it returns
    with limit 0 (which is falsy and means no limit), in the same order, so
    never more than [limit]. *)
Theorem get_documents_limit_is_prefix db name flt limit :
  limit <> O ->
  get_documents db name flt limit = take limit (get_documents db name flt 0) /\
  (List.length (get_documents db name flt limit) <= limit)%nat.
Proof.
  intros H. split.
  - unfold get_documents. destruct limit; [congruence|].
    symmetry. apply List.firstn_map.
  - now apply get_documents_limit.
Qed.

Lemma get_documents_limit_is_prefix_witness :
  get_documents Reference.db_reset "user" None 5
  = take 5 (get_documents Reference.db_reset "user" None 0) /\
  (List.length (get_documents Reference.db_reset "user" None 5) <= 5)%nat.
Proof. apply get_documents_limit_is_prefix. discriminate. Defined.

Lemma delete_first_length flt docs :
  (List.length (snd (delete_first flt docs)) + fst (delete_first flt docs))%nat
  = List.length docs.
Proof.
  induction docs as [|d docs IH]; [reflexivity|].
  cbn [delete_first]. destruct (Mongo.matches flt d).
  - cbn. lia.
  - destruct (delete_first flt docs) as [n rest]. cbn in *. lia.
Qed.

Lemma delete_first_count flt docs :
  fst (delete_first flt docs)
  = match head (List.filter (Mongo.matches flt) docs) with Some _ => 1%nat | None => O end.
Proof.
  induction docs as [|d docs IH]; [reflexivity|].
  cbn [delete_first List.filter]. destruct (Mongo.matches flt d); [reflexivity|].
  destruct (delete_first flt docs) as [n rest]. exact IH.
Qed.

Lemma delete_first_by_id n docs :
  NoDup (doc_id <$> docs) ->
  snd (delete_first {[ "_id" := VOid n ]} docs)
  = List.filter (fun d => negb (N.eqb (doc_id d) n)) docs.
Proof.
  induction docs as [|d docs IH]; intros Hnd; [reflexivity|].
  rewrite fmap_cons in Hnd. apply NoDup_cons in Hnd as [Hd Hnd].
  cbn [delete_first List.filter].
  destruct (Mongo.matches {[ "_id" := VOid n ]} d) eqn:Hm.
  - apply MongoFacts.matches_id in Hm. subst n.
    rewrite N.eqb_refl. cbn [negb snd].
    symmetry. apply List.forallb_filter_id. apply List.forallb_forall.
    intros x Hx. apply negb_true_iff, N.eqb_neq. intros Heq.
    apply Hd. rewrite <- Heq. apply list_elem_of_fmap. exists x.
    split; [reflexivity | now apply list_elem_of_In].
  - assert (Hne : N.eqb (doc_id d) n = false).
    { apply N.eqb_neq. intros Heq. apply not_true_iff_false in Hm. apply Hm.
      now apply MongoFacts.matches_id. }
    rewrite Hne. cbn [negb]. specialize (IH Hnd).
    destruct (delete_first {[ "_id" := VOid n ]} docs) as [k rest].
    cbn [snd] in *. now rewrite IH.
Qed.

Lemma filter_by_other_id n m docs :
  m <> n ->
  List.filter (Mongo.matches {[ "_id" := VOid m ]})
    (List.filter (fun d => negb (N.eqb (doc_id d) n)) docs)
  = List.filter (Mongo.matches {[ "_id" := VOid m ]}) docs.
Proof.
  intros Hmn. induction docs as [|d docs IH]; [reflexivity|].
  cbn [List.filter]. destruct (N.eqb (doc_id d) n) eqn:E; cbn [negb].
  - apply N.eqb_eq in E.
    assert (Hm : Mongo.matches {[ "_id" := VOid m ]} d = false).
    { apply not_true_iff_false. intros Hm. apply MongoFacts.matches_id in Hm. congruence. }
    now rewrite Hm.
  - cbn [List.filter]. now rewrite IH.
Qed.

(** X4.  [delete_document] by identifier, in a collection without repeated
    identifiers: the count returned is 1 when the document existed and 0
    otherwise, the collection shrinks by exactly that count, the identifier
    is gone afterwards, every other identifier resolves as before, and no
    other collection changes. *)
Theorem delete_document_by_id name n db :
  NoDup (doc_id <$> Mongo.col db name) ->
  let r := delete_document name {[ "_id" := VOid n ]} db in
  fst r = match get_one db name {[ "_id" := VOid n ]} with Some _ => 1%nat | None => O end /\
  (List.length (Mongo.col (snd r) name) + fst r)%nat = List.length (Mongo.col db name) /\
  get_one (snd r) name {[ "_id" := VOid n ]} = None /\
  (forall m, m <> n ->
     get_one (snd r) name {[ "_id" := VOid m ]} = get_one db name {[ "_id" := VOid m ]}) /\
  (forall other, name <> other -> Mongo.col (snd r) other = Mongo.col db other).
Proof.
  intros Hnd r. subst r. unfold delete_document.
  pose proof (delete_first_length {[ "_id" := VOid n ]} (Mongo.col db name)) as Hlen.
  pose proof (delete_first_count {[ "_id" := VOid n ]} (Mongo.col db name)) as Hcount.
  pose proof (delete_first_by_id n (Mongo.col db name) Hnd) as Hrest.
  destruct (delete_first {[ "_id" := VOid n ]} (Mongo.col db name)) as [k rest].
  cbn [fst snd] in *.
  assert (Hcol : Mongo.col {| collections := <[name := rest]> (collections db);
                              next_oid := next_oid db |} name = rest).
  { unfold Mongo.col. cbn [collections]. now rewrite lookup_insert_eq. }
  split; [|split; [|split; [|split]]].
  - rewrite Hcount. unfold get_one, Mongo.find_one, Mongo.find.
    now destruct (head _).
  - now rewrite Hcol.
  - apply get_one_None. rewrite Hcol, Hrest. intros u Hu.
    apply list_elem_of_In, List.filter_In in Hu as [_ Hu].
    apply negb_true_iff, N.eqb_neq in Hu.
    apply not_true_iff_false. intros Hm. apply MongoFacts.matches_id in Hm. congruence.
  - intros m Hm. unfold get_one, Mongo.find_one, Mongo.find.
    rewrite Hcol, Hrest. now rewrite filter_by_other_id.
  - intros other Hother. unfold Mongo.col. cbn [collections].
    now rewrite lookup_insert_ne.
Qed.

Lemma delete_document_by_id_witness :
  let r := delete_document "user" {[ "_id" := VOid 0 ]} Reference.db_reset in
  fst r = match get_one Reference.db_reset "user" {[ "_id" := VOid 0 ]} with
          | Some _ => 1%nat | None => O end /\
  (List.length (Mongo.col (snd r) "user") + fst r)%nat
  = List.length (Mongo.col Reference.db_reset "user") /\
  get_one (snd r) "user" {[ "_id" := VOid 0 ]} = None /\
  (forall m, m <> 0%N ->
     get_one (snd r) "user" {[ "_id" := VOid m ]}
     = get_one Reference.db_reset "user" {[ "_id" := VOid m ]}) /\
  (forall other, "user" <> other ->
     Mongo.col (snd r) other = Mongo.col Reference.db_reset other).
Proof.
  apply delete_document_by_id.
  assert (E : doc_id <$> Mongo.col Reference.db_reset "user" = [0%N])
    by (vm_compute; reflexivity).
  rewrite E. apply NoDup_singleton.
Defined.

(** ** Who am I, and the admin overview *)

(** X5.  [GET /api/auth/me] never returns the password hash: when the token
    is accepted, the answer is the current user's dictionary without the
    key "password" and with every other key unchanged; when it is not, the
    failure of [get_current_user] is passed on as it is. *)
Theorem me_hides_password lib cfg token now db :
  match Backend.get_current_user lib cfg token now db with
  | Return current =>
      exists data,
        Backend.get_me lib cfg token now db = Return data /\
        data !! "password" = None /\
        forall k, k <> "password" -> data !! k = current !! k
  | HTTPException c d => Backend.get_me lib cfg token now db = HTTPException c d
  | Uncaught e => Backend.get_me lib cfg token now db = Uncaught e
  end.
Proof.
  unfold Backend.get_me.
  destruct (Backend.get_current_user lib cfg token now db) as [current | c d | e];
    cbn [bind]; try reflexivity.
  exists (Backend.me current). split; [reflexivity|]. unfold Backend.me. split.
  - apply map_lookup_filter_None. right. intros x _ Hk. now apply Hk.
  - intros k Hk. destruct (current !! k) as [v|] eqn:E.
    + apply map_lookup_filter_Some. split; [exact E | exact Hk].
    + apply map_lookup_filter_None. left. exact E.
Qed.

Lemma filter_matches_empty docs : List.filter (Mongo.matches ∅) docs = docs.
Proof.
  induction docs as [|d docs IH]; [reflexivity|].
  cbn [List.filter]. now rewrite MongoFacts.matches_empty, IH.
Qed.

Lemma get_documents_all db name limit :
  limit <> O ->
  get_documents db name (Some ∅) limit = List.map stringify (take limit (Mongo.col db name)).
Proof.
  intros H. unfold get_documents, Mongo.find. cbn [default from_option id].
  rewrite filter_matches_empty. destruct limit; [congruence | reflexivity].
Qed.

(** X6.  What the admin receives: the first 1000 user documents and the
    first 1000 activity documents in insertion order, each as stored with
    its identifier as text.  Nothing is stripped, so every listed user comes
    with the stored password hash. *)
Theorem admin_overview_contents cfg current db :
  Backend.is_admin cfg current = Return true ->
  Backend.admin_overview cfg current db
  = Return (List.map stringify (take 1000 (users db)),
            List.map stringify (take 1000 (Mongo.col db "activity"))) /\
  forall i u, (i < 1000)%nat -> users db !! i = Some u ->
    exists out,
      List.map stringify (take 1000 (users db)) !! i = Some out /\
      out !! "_id" = Some (VStr (ObjectId.str (doc_id u))) /\
      out !! "password" = doc_fields u !! "password".
Proof.
  intros Hadmin. split.
  - unfold Backend.admin_overview. rewrite Hadmin. cbn [bind negb].
    now rewrite !get_documents_all by discriminate.
  - intros i u Hi Hu. exists (stringify u). split; [|split].
    + change (List.map stringify (take 1000 (users db)))
        with (stringify <$> take 1000 (users db)).
      rewrite list_lookup_fmap, lookup_take_lt by exact Hi. now rewrite Hu.
    + apply MongoFacts.stringify_id.
    + now apply MongoFacts.stringify_field.
Qed.

Lemma admin_overview_contents_witness :
  Backend.admin_overview Reference.cfg {[ "email" := VStr "MyEmail@Domain.com" ]}
    Reference.db_alice
  = Return (List.map stringify (take 1000 (users Reference.db_alice)),
            List.map stringify (take 1000 (Mongo.col Reference.db_alice "activity"))) /\
  forall i u, (i < 1000)%nat -> users Reference.db_alice !! i = Some u ->
    exists out,
      List.map stringify (take 1000 (users Reference.db_alice)) !! i = Some out /\
      out !! "_id" = Some (VStr (ObjectId.str (doc_id u))) /\
      out !! "password" = doc_fields u !! "password".
Proof. apply admin_overview_contents. vm_compute. reflexivity. Defined.

(** ** The lifetime of a session token *)

Lemma access_token_decode lib cfg uid email delta now now' :
  codec_laws lib ->
  Jose.decode (loads lib) (hmac_verify lib)
    (Backend.create_access_token lib cfg {[ "user_id" := uid; "email" := email ]} delta now)
    (SECRET_KEY cfg) [ALGORITHM] now'
  = if now' / 1000000 <=? token_deadline cfg delta now / 1000000
    then Jose.Claims (<["exp" := VInt (token_deadline cfg delta now / 1000000)]>
                        {[ "user_id" := uid; "email" := email ]})
    else Jose.JWTError.
Proof.
  intros Hlaws.
  set (data := ({[ "user_id" := uid; "email" := email ]} : dict)).
  set (deadline := token_deadline cfg delta now).
  change (Backend.create_access_token lib cfg data delta now)
    with (Jose.encode (dumps lib) (hmac_sign lib) (<["exp" := VDate deadline]> data)
            (SECRET_KEY cfg) ALGORITHM).
  assert (Hfold :
    fold_left Jose.to_timestamp ["exp"; "iat"; "nbf"] (<["exp" := VDate deadline]> data)
    = <["exp" := VInt (deadline / 1000000)]> data).
  { cbn [fold_left].
    unfold Jose.to_timestamp at 3. rewrite lookup_insert_eq, insert_insert_eq.
    unfold Jose.to_timestamp. unfold data.
    rewrite !lookup_insert_ne by done. rewrite !lookup_singleton_ne by done.
    reflexivity. }
  unfold Jose.decode, Jose.encode. rewrite Hfold.
  rewrite JoseFacts.split_token_join
    by (apply dumps_no_dot || apply sign_no_dot; exact Hlaws).
  cbn [Jose.header_segment Jose.signing_input Jose.crypto_segment Jose.claims_segment].
  rewrite !(loads_dumps lib Hlaws), JoseFacts.header_allowed, (verify_sign lib Hlaws).
  cbn [negb].
  unfold Jose.validate_claims, Jose.claim_checks, Jose.when_present.
  rewrite lookup_insert_eq. unfold data.
  rewrite !lookup_insert_ne by done. rewrite !lookup_singleton_ne by done.
  cbn [Jose.first_failure Jose.check_int Jose.py_int].
  destruct (Z.leb_spec (now' / 1000000) (deadline / 1000000)) as [Hle | Hgt].
  - assert (E : (deadline / 1000000 <? now' / 1000000) = false) by (apply Z.ltb_ge; lia).
    now rewrite E.
  - assert (E : (deadline / 1000000 <? now' / 1000000) = true) by (apply Z.ltb_lt; lia).
    now rewrite E.
Qed.

(** X7.  The exact lifetime of a token issued for a stored user.  Its
    deadline is the issue time plus [expires_delta], or plus
    [ACCESS_TOKEN_EXPIRE_MINUTES] when [expires_delta] is [None] or a zero
    duration.  [get_current_user] returns the user as long as the current
    second is not later than the second of the deadline, and answers 401
    from the next second on. *)
Theorem session_token_lifetime lib cfg db u email delta now now' :
  codec_laws lib ->
  Mongo.find_one db "user" {[ "_id" := VOid (doc_id u) ]} = Some u ->
  (doc_id u < 2 ^ 96)%N ->
  Backend.is_none email = false ->
  Backend.get_current_user lib cfg
    (Backend.create_access_token lib cfg
       {[ "user_id" := VStr (ObjectId.str (doc_id u)); "email" := email ]} delta now)
    now' db
  = if now' / 1000000 <=? token_deadline cfg delta now / 1000000
    then Return (stringify u)
    else HTTPException 401 "Could not validate credentials".
Proof.
  intros Hlaws Hfind Hb Hemail. unfold Backend.get_current_user.
  rewrite (access_token_decode lib cfg _ _ delta now now' Hlaws).
  destruct (now' / 1000000 <=? token_deadline cfg delta now / 1000000); [|reflexivity].
  unfold get_or.
  rewrite (lookup_insert_ne _ "exp" "user_id") by done.
  rewrite (lookup_insert_ne _ "exp" "email") by done.
  rewrite lookup_insert_eq.
  rewrite (lookup_insert_ne _ "user_id" "email") by done.
  rewrite lookup_singleton_eq.
  cbn [default from_option id]. rewrite Hemail. cbn [Backend.is_none orb].
  rewrite (filter_id_of_str _ Hb). cbn [bind]. now rewrite Hfind.
Qed.

Lemma session_token_lifetime_witness :
  Backend.get_current_user Reference.lib Reference.cfg
    (Backend.create_access_token Reference.lib Reference.cfg
       {[ "user_id" := VStr (ObjectId.str (doc_id Reference.alice_doc));
          "email" := VStr "alice@x.com" ]} (Some 0) 1000)
    3600999999 Reference.db_alice
  = if 3600999999 / 1000000 <=? token_deadline Reference.cfg (Some 0) 1000 / 1000000
    then Return (stringify Reference.alice_doc)
    else HTTPException 401 "Could not validate credentials".
Proof.
  apply session_token_lifetime.
  - exact ReferenceFacts.codec_ok.
  - vm_compute. reflexivity.
  - reflexivity.
  - reflexivity.
Defined.



(** ** Signup, its log entry and what a crash leaves behind *)



Lemma store_inv_email_free db email :
  store_inv db ->
  get_one db "user" {[ "email" := VStr (Str.lower email) ]} = None ->
  email_free db email.
Proof.
  intros Hinv Hget u e Hu He Heq.
  destruct (inv_lower db Hinv u Hu) as (s & Hs & Hlow).
  rewrite Hs in He. injection He as <-. rewrite Hlow in Heq. subst s.
  rewrite get_one_None in Hget. specialize (Hget u Hu).
  apply not_true_iff_false in Hget. apply Hget.
  now apply MongoFacts.matches_field.
Qed.

Lemma new_user_email lib payload salt now oid :
  doc_fields (new_user lib payload salt now oid) !! "email"
  = Some (VStr (Str.lower (UserCreate.email payload))).
Proof.
  unfold new_user, stamped. cbn [doc_fields].
  rewrite !lookup_insert_ne by done. apply lookup_insert_eq.
Qed.

(** What [signup] does in each of its three ways out. *)
Lemma signup_cases lib cfg payload request salt csrf now db :
  let email := Str.lower (UserCreate.email payload) in
  (exists existing,
      get_one db "user" {[ "email" := VStr email ]} = Some existing /\
      Backend.signup lib cfg payload request salt csrf now db
      = (HTTPException 400 "Email already registered", db)) \/
  (get_one db "user" {[ "email" := VStr email ]} = None /\
   exists db1,
     users db1 = (users db ++ [new_user lib payload salt now (next_oid db)])%list /\
     next_oid db1 = N.succ (next_oid db) /\
     (forall name, "user" <> name -> Mongo.col db1 name = Mongo.col db name) /\
     ((client request = None /\
       Backend.signup lib cfg payload request salt csrf now db
       = (Uncaught "AttributeError", db1)) \/
      (exists addr db2,
          client request = Some addr /\
          Backend.signup lib cfg payload request salt csrf now db
          = (Return {| Token.access_token :=
                         Backend.create_access_token lib cfg
                           {[ "user_id" := VStr (ObjectId.str (next_oid db));
                              "email" := VStr email ]} None now;
                       Token.token_type := "bearer"; Token.csrf_token := csrf |}, db2) /\
          users db2 = users db1 /\
          next_oid db2 = N.succ (N.succ (next_oid db)) /\
          Mongo.col db2 "activity"
          = (Mongo.col db "activity" ++
             [activity_entry (N.succ (next_oid db)) (VStr (ObjectId.str (next_oid db)))
                "signup" (VStr (host addr)) now])%list /\
          (forall name, "user" <> name -> "activity" <> name ->
                        Mongo.col db2 name = Mongo.col db name)))).
Proof.
  intros email. unfold Backend.signup. fold email.
  destruct (get_one db "user" {[ "email" := VStr email ]}) as [existing|] eqn:Hget.
  - left. eauto.
  - right. split; [reflexivity|].
    match goal with |- context [create_document "user" ?d now db] =>
      destruct (MongoFacts.create_document_spec "user" d now db)
        as (db1 & E1 & Hn1 & Hu1 & Ho1) end.
    rewrite E1. exists db1.
    split; [exact Hu1|]. split; [exact Hn1|]. split; [exact Ho1|].
    destruct (client request) as [addr|].
    + right.
      match goal with |- context [create_document "activity" ?d now db1] =>
        destruct (MongoFacts.create_document_spec "activity" d now db1)
          as (db2 & E2 & Hn2 & Hu2 & Ho2) end.
      rewrite E2. exists addr, db2. split; [reflexivity|]. split; [reflexivity|].
      split; [unfold users; now apply Ho2|]. split; [now rewrite Hn2, Hn1|]. split.
      * rewrite Hu2, (Ho1 "activity") by done. unfold activity_entry. now rewrite Hn1.
      * intros name H1 H2. rewrite (Ho2 name) by exact H2. now apply Ho1.
    + left. split; reflexivity.
Qed.





(** ** Login, its log entry, and login after signup *)






(** ** Forgotten passwords *)



(** ** More on password reset *)










(** ** One user per email, kept by every handler *)

Lemma store_inv_frame db db' :
  users db' = users db ->
  (next_oid db <= next_oid db')%N -> (next_oid db' < 2 ^ 96)%N ->
  store_inv db -> store_inv db'.
Proof.
  intros Hu Hle Hb Hinv. split; try rewrite Hu.
  - exact Hb.
  - intros u H. try rewrite Hu in H. pose proof (inv_issued db Hinv u H). lia.
  - exact (inv_ids db Hinv).
  - intros u H. try rewrite Hu in H. exact (inv_lower db Hinv u H).
  - exact (inv_emails db Hinv).
Qed.

Lemma update_first_ids flt upd docs :
  doc_id <$> Mongo.update_first flt upd docs = doc_id <$> docs.
Proof.
  induction docs as [|d docs IH]; [reflexivity|].
  cbn [Mongo.update_first]. destruct (Mongo.matches flt d).
  - reflexivity.
  - rewrite !fmap_cons. now rewrite IH.
Qed.

Lemma update_first_field flt upd docs k :
  upd !! k = None ->
  (fun u => doc_fields u !! k) <$> Mongo.update_first flt upd docs
  = (fun u => doc_fields u !! k) <$> docs.
Proof.
  intros Hk. induction docs as [|d docs IH]; [reflexivity|].
  cbn [Mongo.update_first]. destruct (Mongo.matches flt d).
  - rewrite !fmap_cons. f_equal. cbn [Mongo.set_fields doc_fields].
    now apply lookup_union_r.
  - rewrite !fmap_cons. now rewrite IH.
Qed.

Lemma update_first_elem flt upd docs u' :
  u' ∈ Mongo.update_first flt upd docs ->
  exists u, u ∈ docs /\ doc_id u' = doc_id u /\
            forall k, upd !! k = None -> doc_fields u' !! k = doc_fields u !! k.
Proof.
  induction docs as [|d docs IH]; [intros H; inversion H|].
  cbn [Mongo.update_first]. destruct (Mongo.matches flt d).
  - intros H. apply elem_of_cons in H as [-> | H].
    + exists d. split; [apply list_elem_of_here|]. split; [reflexivity|].
      intros k Hk. cbn [Mongo.set_fields doc_fields]. now apply lookup_union_r.
    + exists u'. split; [now apply list_elem_of_further | auto].
  - intros H. apply elem_of_cons in H as [-> | H].
    + exists d. split; [apply list_elem_of_here | auto].
    + destruct (IH H) as (u & Hu & Hid & Hk). exists u.
      split; [now apply list_elem_of_further | auto].
Qed.

Lemma store_inv_update flt upd db :
  upd !! "email" = None ->
  store_inv db -> store_inv (Mongo.update_one "user" flt upd db).
Proof.
  intros Hupd Hinv.
  assert (Hu : users (Mongo.update_one "user" flt upd db)
               = Mongo.update_first flt upd (users db))
    by (unfold users; apply MongoFacts.col_update_one).
  split; try rewrite Hu.
  - exact (inv_bound db Hinv).
  - intros u' H. try rewrite Hu in H.
    destruct (update_first_elem _ _ _ _ H) as (u & Hin & Hid & _).
    rewrite Hid. exact (inv_issued db Hinv u Hin).
  - rewrite update_first_ids. exact (inv_ids db Hinv).
  - intros u' H. try rewrite Hu in H.
    destruct (update_first_elem _ _ _ _ H) as (u & Hin & _ & Hk).
    rewrite (Hk "email" Hupd). exact (inv_lower db Hinv u Hin).
  - rewrite (update_first_field _ _ _ "email" Hupd). exact (inv_emails db Hinv).
Qed.

Lemma store_inv_signup lib cfg payload request salt csrf now db :
  store_inv db ->
  (N.succ (N.succ (next_oid db)) < 2 ^ 96)%N ->
  store_inv (snd (Backend.signup lib cfg payload request salt csrf now db)).
Proof.
  intros Hinv Hroom.
  destruct (signup_cases lib cfg payload request salt csrf now db)
    as [(existing & _ & ->) | (Hnone & db1 & Hu & Hn & _ & Hout)]; [exact Hinv|].
  pose proof (store_inv_email_free db _ Hinv Hnone) as Hfree.
  assert (Hinv1 : store_inv db1).
  { split; try rewrite Hu.
    - rewrite Hn. lia.
    - intros u H. try rewrite Hu in H. rewrite Hn.
      apply elem_of_app in H as [H | H].
      + pose proof (inv_issued db Hinv u H). lia.
      + apply list_elem_of_singleton in H. subst u. cbn [doc_id new_user]. lia.
    - rewrite fmap_app. apply NoDup_app. split; [exact (inv_ids db Hinv)|]. split.
      + intros x Hx Hx'. cbn in Hx'. apply list_elem_of_singleton in Hx'. subst x.
        apply list_elem_of_fmap in Hx as (u & Hid & Hin).
        pose proof (inv_issued db Hinv u Hin). lia.
      + cbn. apply NoDup_singleton.
    - intros u H. try rewrite Hu in H. apply elem_of_app in H as [H | H].
      + exact (inv_lower db Hinv u H).
      + apply list_elem_of_singleton in H. subst u. eexists. split.
        * apply new_user_email.
        * apply lower_idem.
    - rewrite fmap_app. apply NoDup_app. split; [exact (inv_emails db Hinv)|]. split.
      + intros x Hx Hx'. cbn [fmap list_fmap] in Hx'.
        apply list_elem_of_singleton in Hx'. subst x.
        apply list_elem_of_fmap in Hx as (u & He & Hin).
        rewrite new_user_email in He. symmetry in He.
        destruct (Hfree u _ Hin He). apply lower_idem.
      + cbn. apply NoDup_singleton. }
  destruct Hout as [[_ ->] | (addr & db2 & _ & -> & Hu2 & Hn2 & _)]; [exact Hinv1|].
  cbn [snd]. apply (store_inv_frame db1); try assumption; lia.
Qed.

Lemma login_frame lib cfg form request csrf now db :
  let db' := snd (Backend.login lib cfg form request csrf now db) in
  users db' = users db /\
  (next_oid db <= next_oid db')%N /\ (next_oid db' <= N.succ (next_oid db))%N.
Proof.
  unfold Backend.login.
  destruct (get_one db "user" _) as [user|]; [|cbn; repeat split; lia].
  destruct (Backend.verify_password lib _ _) as [[|] | |]; try (cbn; repeat split; lia).
  destruct (Backend.item user "_id") as [uid | |]; try (cbn; repeat split; lia).
  destruct (Backend.item user "email") as [email | |]; try (cbn; repeat split; lia).
  destruct request as [[[addr|]]|]; try (cbn; repeat split; lia).
  - cbn [client].
    match goal with |- context [create_document "activity" ?d now db] =>
      destruct (MongoFacts.create_document_spec "activity" d now db)
        as (db' & E & Hn & Hc & Ho) end.
    rewrite E. cbn [snd]. unfold users. rewrite Ho by done. rewrite Hn. repeat split; lia.
  - match goal with |- context [create_document "activity" ?d now db] =>
      destruct (MongoFacts.create_document_spec "activity" d now db)
        as (db' & E & Hn & Hc & Ho) end.
    rewrite E. cbn [snd]. unfold users. rewrite Ho by done. rewrite Hn. repeat split; lia.
Qed.

Lemma forgot_password_frame payload token now db :
  let db' := snd (Backend.forgot_password payload token now db) in
  users db' = users db /\
  (next_oid db <= next_oid db')%N /\ (next_oid db' <= N.succ (next_oid db))%N.
Proof.
  unfold Backend.forgot_password.
  destruct (get_one db "user" _) as [user|]; [|cbn; repeat split; lia].
  destruct (Backend.item user "_id") as [uid | |]; try (cbn; repeat split; lia).
  match goal with |- context [create_document "passwordreset" ?d now db] =>
    destruct (MongoFacts.create_document_spec "passwordreset" d now db)
      as (db' & E & Hn & Hc & Ho) end.
  rewrite E. cbn [snd]. unfold users. rewrite Ho by done. rewrite Hn. repeat split; lia.
Qed.

Lemma store_inv_reset lib payload salt now db :
  store_inv db -> store_inv (snd (Backend.reset_password lib payload salt now db)).
Proof.
  intros Hinv. unfold Backend.reset_password.
  destruct (get_documents db "passwordreset" _ 1) as [|rec rest]; [exact Hinv|].
  destruct (Backend.is_expired rec now) as [[|] | |]; try exact Hinv.
  destruct (let! uid := Backend.item rec "user_id" in Backend.filter_id_of uid);
    try exact Hinv.
  cbn [snd]. apply store_inv_update; [|exact Hinv].
  rewrite lookup_insert_ne by done. now apply lookup_singleton_ne.
Qed.

(** X17.  One user per normalized email is an invariant of the routes.  In
    a store where users have distinct identifiers handed out by the store
    and distinct lowercase emails, and with room for two more identifiers,
    the stores left by [POST /api/auth/signup], by [login], by
    [forgot_password] and by [POST /api/auth/reset-password] are again of
    that kind, whatever the request and whatever the outcome. *)
Theorem handlers_keep_one_user_per_email lib cfg db :
  store_inv db ->
  (N.succ (N.succ (next_oid db)) < 2 ^ 96)%N ->
  (forall payload request salt csrf now,
      store_inv (snd (Backend.post_signup lib cfg payload request salt csrf now db))) /\
  (forall form request csrf now,
      store_inv (snd (Backend.login lib cfg form request csrf now db))) /\
  (forall payload token now,
      store_inv (snd (Backend.forgot_password payload token now db))) /\
  (forall payload salt now,
      store_inv (snd (Backend.post_reset_password lib payload salt now db))).
Proof.
  intros Hinv Hroom. split; [|split; [|split]].
  - intros payload request salt csrf now. unfold Backend.post_signup.
    destruct (Backend.valid_UserCreate lib payload); [|exact Hinv].
    now apply store_inv_signup.
  - intros form request csrf now.
    destruct (login_frame lib cfg form request csrf now db) as (Hu & Hle & Hge).
    apply (store_inv_frame db); try assumption. lia.
  - intros payload token now.
    destruct (forgot_password_frame payload token now db) as (Hu & Hle & Hge).
    apply (store_inv_frame db); try assumption. lia.
  - intros payload salt now. unfold Backend.post_reset_password.
    destruct (Backend.valid_ResetPasswordRequest payload); [|exact Hinv].
    now apply store_inv_reset.
Qed.

Lemma handlers_keep_one_user_per_email_witness :
  (forall payload request salt csrf now,
      store_inv (snd (Backend.post_signup Reference.lib Reference.cfg payload request salt
                        csrf now Reference.db_alice))) /\
  (forall form request csrf now,
      store_inv (snd (Backend.login Reference.lib Reference.cfg form request csrf now
                        Reference.db_alice))) /\
  (forall payload token now,
      store_inv (snd (Backend.forgot_password payload token now Reference.db_alice))) /\
  (forall payload salt now,
      store_inv (snd (Backend.post_reset_password Reference.lib payload salt now
                        Reference.db_alice))).
Proof.
  apply handlers_keep_one_user_per_email; [|reflexivity].
  apply (store_inv_signup Reference.lib Reference.cfg Reference.alice Reference.req
           Reference.salt1 "csrf" 1000 Reference.empty_db); [|reflexivity].
  split.
  - reflexivity.
  - intros u H. inversion H.
  - apply NoDup_nil_2.
  - intros u H. inversion H.
  - apply NoDup_nil_2.
Defined.

(** ** From a forgotten password back to a login *)





Lemma db_alice_inv : store_inv Reference.db_alice.
Proof.
  apply (store_inv_signup Reference.lib Reference.cfg Reference.alice Reference.req
           Reference.salt1 "csrf" 1000 Reference.empty_db); [|reflexivity].
  split.
  - reflexivity.
  - intros u H. inversion H.
  - apply NoDup_nil_2.
  - intros u H. inversion H.
  - apply NoDup_nil_2.
Qed.


(** ** Sessions against deletions and resets *)

Lemma delete_document_gone name n db :
  NoDup (doc_id <$> Mongo.col db name) ->
  Mongo.find_one (snd (delete_document name {[ "_id" := VOid n ]} db)) name
    {[ "_id" := VOid n ]} = None.
Proof.
  intros Hnd. unfold delete_document.
  pose proof (delete_first_by_id n (Mongo.col db name) Hnd) as Hrest.
  destruct (delete_first {[ "_id" := VOid n ]} (Mongo.col db name)) as [k rest].
  cbn [snd] in *. unfold Mongo.find_one, Mongo.find, Mongo.col. cbn [collections].
  rewrite lookup_insert_eq. cbn [default from_option id]. rewrite Hrest.
  apply MongoFacts.head_filter_None. intros x Hx.
  apply list_elem_of_In, List.filter_In in Hx as [_ Hx].
  apply negb_true_iff, N.eqb_neq in Hx.
  apply not_true_iff_false. intros Hm. apply MongoFacts.matches_id in Hm. congruence.
Qed.

(** X19.  Deleting a user ends the user's sessions.  A token issued for a
    stored user stops working as soon as the user document is deleted by
    identifier: [get_current_user] then answers 401 at every time, well
    before the token's own expiry. *)
Theorem session_ends_with_user lib cfg db u email delta now now' :
  codec_laws lib ->
  NoDup (doc_id <$> users db) ->
  (doc_id u < 2 ^ 96)%N ->
  Backend.is_none email = false ->
  Backend.get_current_user lib cfg
    (Backend.create_access_token lib cfg
       {[ "user_id" := VStr (ObjectId.str (doc_id u)); "email" := email ]} delta now)
    now' (snd (delete_document "user" {[ "_id" := VOid (doc_id u) ]} db))
  = HTTPException 401 "Could not validate credentials".
Proof.
  intros Hlaws Hnd Hb Hemail. unfold Backend.get_current_user.
  rewrite (access_token_decode lib cfg _ _ delta now now' Hlaws).
  destruct (now' / 1000000 <=? token_deadline cfg delta now / 1000000); [|reflexivity].
  unfold get_or.
  rewrite (lookup_insert_ne _ "exp" "user_id") by done.
  rewrite (lookup_insert_ne _ "exp" "email") by done.
  rewrite lookup_insert_eq.
  rewrite (lookup_insert_ne _ "user_id" "email") by done.
  rewrite lookup_singleton_eq.
  cbn [default from_option id]. rewrite Hemail. cbn [Backend.is_none orb].
  rewrite (filter_id_of_str _ Hb). cbn [bind].
  now rewrite (delete_document_gone "user" (doc_id u) db Hnd).
Qed.

Lemma session_ends_with_user_witness :
  Backend.get_current_user Reference.lib Reference.cfg
    (Backend.create_access_token Reference.lib Reference.cfg
       {[ "user_id" := VStr (ObjectId.str (doc_id Reference.alice_doc));
          "email" := VStr "alice@x.com" ]} None 1000)
    2000 (snd (delete_document "user" {[ "_id" := VOid (doc_id Reference.alice_doc) ]}
                 Reference.db_alice))
  = HTTPException 401 "Could not validate credentials".
Proof.
  apply session_ends_with_user.
  - exact ReferenceFacts.codec_ok.
  - exact (inv_ids _ db_alice_inv).
  - reflexivity.
  - reflexivity.
Defined.

Lemma update_first_find_id flt upd docs n u :
  head (List.filter (Mongo.matches {[ "_id" := VOid n ]}) docs) = Some u ->
  exists u',
    head (List.filter (Mongo.matches {[ "_id" := VOid n ]})
            (Mongo.update_first flt upd docs)) = Some u' /\
    doc_id u' = n /\
    forall k, upd !! k = None -> doc_fields u' !! k = doc_fields u !! k.
Proof.
  induction docs as [|d docs IH]; [discriminate|].
  cbn [Mongo.update_first List.filter].
  destruct (Mongo.matches {[ "_id" := VOid n ]} d) eqn:Hid.
  - cbn [head]. intros [= <-]. apply MongoFacts.matches_id in Hid.
    destruct (Mongo.matches flt d).
    + exists (Mongo.set_fields upd d). cbn [List.filter].
      assert (Hm : Mongo.matches {[ "_id" := VOid n ]} (Mongo.set_fields upd d) = true)
        by now apply MongoFacts.matches_id.
      rewrite Hm. split; [reflexivity|]. split; [exact Hid|].
      intros k Hk. cbn [Mongo.set_fields doc_fields]. now apply lookup_union_r.
    + exists d. cbn [List.filter].
      assert (Hm : Mongo.matches {[ "_id" := VOid n ]} d = true)
        by now apply MongoFacts.matches_id.
      rewrite Hm. auto.
  - intros H. destruct (Mongo.matches flt d).
    + (* the update hit [d], whose identifier is another one *)
      exists u. cbn [List.filter].
      assert (Hm : Mongo.matches {[ "_id" := VOid n ]} (Mongo.set_fields upd d) = false).
      { apply not_true_iff_false. intros Hm. apply MongoFacts.matches_id in Hm.
        apply not_true_iff_false in Hid. apply Hid. now apply MongoFacts.matches_id. }
      rewrite Hm. split; [exact H|]. split; [|auto].
      apply MongoFacts.head_filter_Some in H as [_ H]. now apply MongoFacts.matches_id.
    + cbn [List.filter]. rewrite Hid. now apply IH.
Qed.

(** X20.  A password reset does not end sessions.  A token issued for a
    stored user before a reset is still accepted after it, whatever the
    reset did, until the token's own deadline: [get_current_user] returns
    the user's document as it now stands, with the same identifier and
    email. *)
Theorem session_survives_reset lib cfg db u email delta now now' payload salt now2 :
  codec_laws lib ->
  Mongo.find_one db "user" {[ "_id" := VOid (doc_id u) ]} = Some u ->
  (doc_id u < 2 ^ 96)%N ->
  Backend.is_none email = false ->
  now' / 1000000 <= token_deadline cfg delta now / 1000000 ->
  exists current,
    Backend.get_current_user lib cfg
      (Backend.create_access_token lib cfg
         {[ "user_id" := VStr (ObjectId.str (doc_id u)); "email" := email ]} delta now)
      now' (snd (Backend.reset_password lib payload salt now2 db))
    = Return current /\
    current !! "_id" = Some (VStr (ObjectId.str (doc_id u))) /\
    current !! "email" = doc_fields u !! "email".
Proof.
  intros Hlaws Hfind Hb Hemail Hle.
  assert (Hafter : exists u',
            Mongo.find_one (snd (Backend.reset_password lib payload salt now2 db)) "user"
              {[ "_id" := VOid (doc_id u) ]} = Some u' /\
            doc_id u' = doc_id u /\
            doc_fields u' !! "email" = doc_fields u !! "email").
  { unfold Backend.reset_password.
    destruct (get_documents db "passwordreset" _ 1) as [|rec rest]; [eauto|].
    destruct (Backend.is_expired rec now2) as [[|] | |]; eauto.
    destruct (let! uid := Backend.item rec "user_id" in Backend.filter_id_of uid)
      as [fid | |]; eauto.
    cbn [snd]. unfold Mongo.find_one, Mongo.find in *. rewrite MongoFacts.col_update_one.
    destruct (update_first_find_id {[ "_id" := fid ]}
                {[ "password" := VStr (Backend.get_password_hash lib salt
                                         (ResetPasswordRequest.new_password payload));
                   "updated_at" := VDate now2 ]}
                _ _ _ Hfind) as (u' & Hu' & Hid & Hk).
    exists u'. split; [exact Hu'|]. split; [exact Hid|].
    apply Hk. rewrite lookup_insert_ne by done. now apply lookup_singleton_ne. }
  destruct Hafter as (u' & Hfind' & Hid & Hmail).
  exists (stringify u'). split; [|split].
  - unfold Backend.get_current_user.
    rewrite (access_token_decode lib cfg _ _ delta now now' Hlaws).
    apply Z.leb_le in Hle. rewrite Hle.
    unfold get_or.
    rewrite (lookup_insert_ne _ "exp" "user_id") by done.
    rewrite (lookup_insert_ne _ "exp" "email") by done.
    rewrite lookup_insert_eq.
    rewrite (lookup_insert_ne _ "user_id" "email") by done.
    rewrite lookup_singleton_eq.
    cbn [default from_option id]. rewrite Hemail. cbn [Backend.is_none orb].
    rewrite (filter_id_of_str _ Hb). cbn [bind]. now rewrite Hfind'.
  - rewrite MongoFacts.stringify_id. now rewrite Hid.
  - rewrite MongoFacts.stringify_field by done. exact Hmail.
Qed.

Lemma session_survives_reset_witness :
  exists current,
    Backend.get_current_user Reference.lib Reference.cfg
      (Backend.create_access_token Reference.lib Reference.cfg
         {[ "user_id" := VStr (ObjectId.str (doc_id Reference.alice_doc));
            "email" := VStr "alice@x.com" ]} None 1000)
      6000 (snd (Backend.reset_password Reference.lib Reference.renew Reference.salt2 5000
                   Reference.db_reset))
    = Return current /\
    current !! "_id" = Some (VStr (ObjectId.str (doc_id Reference.alice_doc))) /\
    current !! "email" = doc_fields Reference.alice_doc !! "email".
Proof.
  apply session_survives_reset.
  - exact ReferenceFacts.codec_ok.
  - vm_compute. reflexivity.
  - reflexivity.
  - reflexivity.
  - vm_compute. discriminate.
Defined.

(** ** The text generator with a provider *)

(** X21.  [ai_generate] never fails and has three ways to answer.  With a
    non-empty key, a client that can be built and a completion that comes
    back, the result is the completion's content, or the empty text when
    that content is [None].  When the client cannot be built, or the
    completion call raises, the error is swallowed and the result is the
    local fallback for the prompt. *)
Theorem ai_generate_outcomes openai environ prompt key :
  environ !! "OPENAI_API_KEY" = Some key ->
  key <> "" ->
  match App.OpenAI openai key with
  | None => App.ai_generate openai environ prompt = App.fallback prompt
  | Some c =>
      match App.chat_completions_create openai c "gpt-4o-mini"
              [("system", App.system_prompt); ("user", prompt)] "0.7" with
      | Some (Some content) => App.ai_generate openai environ prompt = content
      | Some None => App.ai_generate openai environ prompt = ""
      | None => App.ai_generate openai environ prompt = App.fallback prompt
      end
  end.
Proof.
  intros Hkey Hne. unfold App.ai_generate, App.get_openai_client. rewrite Hkey.
  apply String.eqb_neq in Hne. rewrite Hne.
  destruct (App.OpenAI openai key) as [c|]; [|reflexivity].
  destruct (App.chat_completions_create openai c _ _ _) as [[content|]|]; reflexivity.
Qed.

Lemma ai_generate_outcomes_witness :
  App.ai_generate Reference.openai Reference.with_key "Describe my shop" = "generated text" /\
  App.ai_generate Reference.empty_answer Reference.with_key "Describe my shop" = "" /\
  App.ai_generate Reference.no_client Reference.with_key "Describe my shop"
  = App.fallback "Describe my shop" /\
  App.ai_generate Reference.failing_call Reference.with_key "Describe my shop"
  = App.fallback "Describe my shop".
Proof.
  assert (Hkey : Reference.with_key !! "OPENAI_API_KEY" = Some "sk-test") by reflexivity.
  assert (Hne : "sk-test" <> "") by discriminate.
  split; [|split; [|split]].
  - exact (ai_generate_outcomes Reference.openai _ "Describe my shop" _ Hkey Hne).
  - exact (ai_generate_outcomes Reference.empty_answer _ "Describe my shop" _ Hkey Hne).
  - exact (ai_generate_outcomes Reference.no_client _ "Describe my shop" _ Hkey Hne).
  - exact (ai_generate_outcomes Reference.failing_call _ "Describe my shop" _ Hkey Hne).
Defined.




(** ** The configured administrator *)


